(** * InternalTexture: reference counting, rebuild and ownership transfer

    A shallow embedding of
    [packages/dev/core/src/Materials/Textures/internalTexture.ts].

    Descriptors are JavaScript objects, so they are modelled as cells of a
    store indexed by object identity ([addr]); every method takes the
    receiver's address and transforms the [World].  The engine is the
    single device of the world: the calls the class makes on it are
    appended to [trace], its loaded-textures cache is the [cache] list.

    JavaScript numbers holding counts, sizes and ids are modelled as [Z]
    (exact below 2^53, where the source uses them); the one product the
    class computes is rounded as a double is ([number_mul]). *)

From Stdlib Require Import ZArith List Bool String Lia Arith.
From Stdlib Require SpecFloat.
Import ListNotations.
Local Open Scope Z_scope.

(** ** Data model *)

(** Object identities of the classes the file only refers to. *)
Definition addr := nat.               (* an InternalTexture object *)
Definition Handle := nat.             (* a HardwareTextureWrapper *)
Definition BaseTexture := nat.        (* a BaseTexture *)
Definition SphericalPolynomial := nat.
Definition Buffer := nat.
Definition BufferView := nat.
Definition Canvas := nat.
Definition Observer := nat.
Definition CallbackId := nat.         (* a registered onRebuildCallback closure *)

Inductive InternalTextureSource :=
| Unknown | Url | Temp | Raw | Dynamic | RenderTarget | MultiRenderTarget
| Cube | CubeRaw | CubePrefiltered | Raw3D | Raw2DArray | DepthStencil
| CubeRawRGBD | Depth.

(** Numeric value of the enum member, in declaration order. *)
Definition source_code (s : InternalTextureSource) : Z :=
  match s with
  | Unknown => 0 | Url => 1 | Temp => 2 | Raw => 3 | Dynamic => 4
  | RenderTarget => 5 | MultiRenderTarget => 6 | Cube => 7 | CubeRaw => 8
  | CubePrefiltered => 9 | Raw3D => 10 | Raw2DArray => 11
  | DepthStencil => 12 | CubeRawRGBD => 13 | Depth => 14
  end.

(** Modelled from the spec: the parent class [TextureSampler] is declared in
    textureSampler.ts; these are the inherited fields that internalTexture.ts
    reads or writes (sampling mode and the cached wrap and anisotropy
    values). *)
Record TextureSampler := mkSampler {
  samplingMode : Z;
  _cachedWrapU : option Z;
  _cachedWrapV : option Z;
  _cachedWrapR : option Z;
  _cachedAnisotropicFilteringLevel : option Z
}.

Definition TextureSampler_new : TextureSampler :=
  mkSampler (-1) None None None None.

Record InternalTexture := mkTexture {
  sampler : TextureSampler;           (* extends TextureSampler *)
  isReady : bool;
  isCube : bool;
  is3D : bool;
  is2DArray : bool;
  isMultiview : bool;
  url : string;
  _originalUrl : option string;
  generateMipMaps : bool;
  samples : Z;
  type : Z;
  format : Z;
  onLoadedObservable : list Observer;
  onErrorObservable : list Observer;
  onRebuildCallback : option CallbackId;
  width : Z;
  height : Z;
  depth : Z;
  baseWidth : Z;
  baseHeight : Z;
  baseDepth : Z;
  invertY : bool;
  label : option string;
  _invertVScale : bool;
  _associatedChannel : Z;
  _source : InternalTextureSource;
  _buffer : option Buffer;
  _bufferView : option BufferView;
  _bufferViewArray : option (list BufferView);
  _bufferViewArrayArray : option (list (list BufferView));
  _size : Z;
  _extension : string;
  _files : option (list string);
  _workingCanvas : option Canvas;
  _workingContext : option Canvas;
  _cachedCoordinatesMode : option Z;
  _isDisabled : bool;
  _compression : option string;
  _sphericalPolynomial : option SphericalPolynomial;
  _sphericalPolynomialPromise : option nat;
  _sphericalPolynomialComputed : bool;
  _lodGenerationScale : Z;
  _lodGenerationOffset : Z;
  _useSRGBBuffer : bool;
  _lodTextureHigh : option BaseTexture;
  _lodTextureMid : option BaseTexture;
  _lodTextureLow : option BaseTexture;
  _isRGBD : bool;
  _linearSpecularLOD : bool;
  _irradianceTexture : option BaseTexture;
  _hardwareTexture : option Handle;
  _maxLodLevel : option Z;
  _references : Z;
  _gammaSpace : option bool;
  _uniqueId : Z
}.

(** Field assignment.  [eta_sampler] and [eta_texture] rebuild a record
    from its own projections; [assign] abstracts the projection being
    written out of that term and plugs the new value in. *)
Definition eta_sampler (s : TextureSampler) : TextureSampler :=
  mkSampler (samplingMode s) (_cachedWrapU s) (_cachedWrapV s)
            (_cachedWrapR s) (_cachedAnisotropicFilteringLevel s).

Definition eta_texture (t : InternalTexture) : InternalTexture :=
  mkTexture (sampler t) (isReady t) (isCube t) (is3D t) (is2DArray t)
    (isMultiview t) (url t) (_originalUrl t) (generateMipMaps t) (samples t)
    (type t) (format t) (onLoadedObservable t) (onErrorObservable t)
    (onRebuildCallback t) (width t) (height t) (depth t) (baseWidth t)
    (baseHeight t) (baseDepth t) (invertY t) (label t) (_invertVScale t)
    (_associatedChannel t) (_source t) (_buffer t) (_bufferView t)
    (_bufferViewArray t) (_bufferViewArrayArray t) (_size t) (_extension t)
    (_files t) (_workingCanvas t) (_workingContext t)
    (_cachedCoordinatesMode t) (_isDisabled t) (_compression t)
    (_sphericalPolynomial t) (_sphericalPolynomialPromise t)
    (_sphericalPolynomialComputed t) (_lodGenerationScale t)
    (_lodGenerationOffset t) (_useSRGBBuffer t) (_lodTextureHigh t)
    (_lodTextureMid t) (_lodTextureLow t) (_isRGBD t) (_linearSpecularLOD t)
    (_irradianceTexture t) (_hardwareTexture t) (_maxLodLevel t)
    (_references t) (_gammaSpace t) (_uniqueId t).

Ltac assign eta proj :=
  let v := fresh "v" in
  let r := fresh "r" in
  intros v r;
  let body := eval cbv beta delta [eta] in (eta r) in
  match eval pattern (proj r) in body with
  | ?ctx _ => let t := eval cbv beta in (ctx v) in exact t
  end.

Definition set__cachedWrapU : option Z -> TextureSampler -> TextureSampler :=
  ltac:(assign eta_sampler _cachedWrapU).
Definition set__cachedWrapV : option Z -> TextureSampler -> TextureSampler :=
  ltac:(assign eta_sampler _cachedWrapV).
Definition set__cachedWrapR : option Z -> TextureSampler -> TextureSampler :=
  ltac:(assign eta_sampler _cachedWrapR).
Definition set__cachedAnisotropicFilteringLevel
  : option Z -> TextureSampler -> TextureSampler :=
  ltac:(assign eta_sampler _cachedAnisotropicFilteringLevel).

Definition set_sampler : TextureSampler -> InternalTexture -> InternalTexture :=
  ltac:(assign eta_texture sampler).
Definition set_isReady : bool -> InternalTexture -> InternalTexture :=
  ltac:(assign eta_texture isReady).
Definition set_generateMipMaps : bool -> InternalTexture -> InternalTexture :=
  ltac:(assign eta_texture generateMipMaps).
Definition set_onLoadedObservable
  : list Observer -> InternalTexture -> InternalTexture :=
  ltac:(assign eta_texture onLoadedObservable).
Definition set_onErrorObservable
  : list Observer -> InternalTexture -> InternalTexture :=
  ltac:(assign eta_texture onErrorObservable).
Definition set_onRebuildCallback
  : option CallbackId -> InternalTexture -> InternalTexture :=
  ltac:(assign eta_texture onRebuildCallback).
Definition set_width : Z -> InternalTexture -> InternalTexture :=
  ltac:(assign eta_texture width).
Definition set_height : Z -> InternalTexture -> InternalTexture :=
  ltac:(assign eta_texture height).
Definition set_depth : Z -> InternalTexture -> InternalTexture :=
  ltac:(assign eta_texture depth).
Definition set_baseWidth : Z -> InternalTexture -> InternalTexture :=
  ltac:(assign eta_texture baseWidth).
Definition set_baseHeight : Z -> InternalTexture -> InternalTexture :=
  ltac:(assign eta_texture baseHeight).
Definition set_baseDepth : Z -> InternalTexture -> InternalTexture :=
  ltac:(assign eta_texture baseDepth).
Definition set__size : Z -> InternalTexture -> InternalTexture :=
  ltac:(assign eta_texture _size).
Definition set__cachedCoordinatesMode
  : option Z -> InternalTexture -> InternalTexture :=
  ltac:(assign eta_texture _cachedCoordinatesMode).
Definition set__sphericalPolynomial
  : option SphericalPolynomial -> InternalTexture -> InternalTexture :=
  ltac:(assign eta_texture _sphericalPolynomial).
Definition set__lodTextureHigh
  : option BaseTexture -> InternalTexture -> InternalTexture :=
  ltac:(assign eta_texture _lodTextureHigh).
Definition set__lodTextureMid
  : option BaseTexture -> InternalTexture -> InternalTexture :=
  ltac:(assign eta_texture _lodTextureMid).
Definition set__lodTextureLow
  : option BaseTexture -> InternalTexture -> InternalTexture :=
  ltac:(assign eta_texture _lodTextureLow).
Definition set__isRGBD : bool -> InternalTexture -> InternalTexture :=
  ltac:(assign eta_texture _isRGBD).
Definition set__irradianceTexture
  : option BaseTexture -> InternalTexture -> InternalTexture :=
  ltac:(assign eta_texture _irradianceTexture).
Definition set__hardwareTexture
  : option Handle -> InternalTexture -> InternalTexture :=
  ltac:(assign eta_texture _hardwareTexture).
Definition set__references : Z -> InternalTexture -> InternalTexture :=
  ltac:(assign eta_texture _references).
Definition set__uniqueId : Z -> InternalTexture -> InternalTexture :=
  ltac:(assign eta_texture _uniqueId).

(** Field initialisers of the class, followed by the constructor's own
    assignments of [_source] and [_uniqueId]. *)
Definition InternalTexture_init (source : InternalTextureSource) (uid : Z)
  : InternalTexture :=
  {| sampler := TextureSampler_new;
     isReady := false; isCube := false; is3D := false; is2DArray := false;
     isMultiview := false; url := ""; _originalUrl := None;
     generateMipMaps := false; samples := 0; type := -1; format := -1;
     onLoadedObservable := []; onErrorObservable := [];
     onRebuildCallback := None;
     width := 0; height := 0; depth := 0;
     baseWidth := 0; baseHeight := 0; baseDepth := 0;
     invertY := false; label := None;
     _invertVScale := false; _associatedChannel := -1; _source := source;
     _buffer := None; _bufferView := None; _bufferViewArray := None;
     _bufferViewArrayArray := None; _size := 0; _extension := "";
     _files := None; _workingCanvas := None; _workingContext := None;
     _cachedCoordinatesMode := None; _isDisabled := false;
     _compression := None; _sphericalPolynomial := None;
     _sphericalPolynomialPromise := None;
     _sphericalPolynomialComputed := false;
     _lodGenerationScale := 0; _lodGenerationOffset := 0;
     _useSRGBBuffer := false;
     _lodTextureHigh := None; _lodTextureMid := None; _lodTextureLow := None;
     _isRGBD := false; _linearSpecularLOD := false;
     _irradianceTexture := None; _hardwareTexture := None;
     _maxLodLevel := None; _references := 1; _gammaSpace := None;
     _uniqueId := uid |}.

(** ** The engine as seen from this class *)

(** The texture-creation entry points [_rebuild] calls, with the arguments
    it passes (callbacks and constant arguments left out). *)
Inductive CreateCall :=
| createTexture (url : string) (noMipmap invertY : bool) (samplingMode : Z)
    (buffer : option Buffer) (format : Z) (extension : string)
    (useSRGBBuffer : bool)
| createRawTexture (data : option BufferView) (width height format : Z)
    (generateMipMaps invertY : bool) (samplingMode : Z)
    (compression : option string) (type : Z) (useSRGBBuffer : bool)
| createRawTexture3D (data : option BufferView)
    (width height depth format : Z) (generateMipMaps invertY : bool)
    (samplingMode : Z) (compression : option string) (type : Z)
| createRawTexture2DArray (data : option BufferView)
    (width height depth format : Z) (generateMipMaps invertY : bool)
    (samplingMode : Z) (compression : option string) (type : Z)
| createDynamicTexture (width height : Z) (generateMipMaps : bool)
    (samplingMode : Z)
| createCubeTexture (rootUrl : string) (files : option (list string))
    (noMipmap : bool) (format : Z) (extension : string)
    (useSRGBBuffer : bool)
| createRawCubeTexture (data : option (list BufferView))
    (size format type : Z) (generateMipMaps invertY : bool)
    (samplingMode : Z) (compression : option string)
| createPrefilteredCubeTexture (rootUrl : string)
    (lodScale lodOffset format : Z) (extension : string).

(** Calls made on the engine and on collaborating objects, in the order
    they are made.  [Call_swapAndDie] is a ghost entry: it records each
    entry into [_swapAndDie] with its [swapAll] argument. *)
Inductive Event :=
| Ev_createHardwareTexture (h : Handle)
| Ev_updateTextureDimensions (texture : addr) (width height depth : Z)
| Ev_create (call : CreateCall) (proxy : addr)
| Ev_updateDynamicTexture (texture : addr) (invertY : bool)
| Ev_releaseTexture (texture : addr)
| Ev_setUsage (h : Handle) (textureSource : InternalTextureSource)
    (generateMipMaps isCube : bool) (width height : Z)
| Ev_BaseTexture_dispose (b : BaseTexture)
| Call_swapAndDie (source target : addr) (swapAll : bool).

Record World := mkWorld {
  heap : addr -> InternalTexture;     (* the objects, by identity *)
  nextAddr : addr;                    (* identities below it are allocated *)
  Counter : Z;                        (* InternalTexture._Counter *)
  nextHandle : Handle;                (* next hardware handle of the device *)
  cache : list addr;                  (* engine.getLoadedTexturesCache() *)
  trace : list Event
}.

Definition eta_world (w : World) : World :=
  mkWorld (heap w) (nextAddr w) (Counter w) (nextHandle w) (cache w) (trace w).

Definition set_heap : (addr -> InternalTexture) -> World -> World :=
  ltac:(assign eta_world heap).
Definition set_nextAddr : addr -> World -> World :=
  ltac:(assign eta_world nextAddr).
Definition set_Counter : Z -> World -> World :=
  ltac:(assign eta_world Counter).
Definition set_nextHandle : Handle -> World -> World :=
  ltac:(assign eta_world nextHandle).
Definition set_cache : list addr -> World -> World :=
  ltac:(assign eta_world cache).
Definition set_trace : list Event -> World -> World :=
  ltac:(assign eta_world trace).

Definition override (h : addr -> InternalTexture) (a : addr)
  (t : InternalTexture) : addr -> InternalTexture :=
  fun b => if Nat.eqb b a then t else h b.

(** [upd a f w]: apply the assignment [f] to the object [a]. *)
Definition upd (a : addr) (f : InternalTexture -> InternalTexture)
  (w : World) : World :=
  set_heap (override (heap w) a (f (heap w a))) w.

Definition emit (e : Event) (w : World) : World :=
  set_trace (trace w ++ [e]) w.

Definition allocated (w : World) (a : addr) : Prop := (a < nextAddr w)%nat.

(** A new object: the next identity, holding [t]. *)
Definition alloc (t : InternalTexture) (w : World) : addr * World :=
  (nextAddr w,
   set_nextAddr (S (nextAddr w)) (set_heap (override (heap w) (nextAddr w) t) w)).

Fixpoint alloc_all (ts : list InternalTexture) (w : World) : World :=
  match ts with
  | [] => w
  | t :: rest => alloc_all rest (snd (alloc t w))
  end.

(** What the engine does that this class cannot see into.  The engine's
    source is outside this file, so it is a parameter:
    - [engine_newTexture]: the descriptor a creation entry point hands back
      (always a new object);
    - [engine_registers]: whether that entry point also pushes the new
      descriptor on the loaded-textures cache;
    - [engine_updateTextureDimensions]: what the resize request does to the
      descriptor it is given;
    - [engine_dynamicReady]: whether [updateDynamicTexture] flags the
      texture ready. *)
Record Engine := mkEngine {
  engine_newTexture : CreateCall -> World -> InternalTexture;
  engine_registers : CreateCall -> World -> bool;
  engine_updateTextureDimensions :
    InternalTexture -> Z -> Z -> Z -> InternalTexture;
  engine_dynamicReady : World -> bool
}.

(** What an [onRebuildCallback] returns.  [proxy] is typed
    [Nullable<InternalTexture | Promise<InternalTexture>>]. *)
Inductive ProxyRef :=
| ProxyNull
| ProxyTexture (p : addr)
| ProxyPromise.

Record RebuildData := mkRebuildData {
  data_created : list InternalTexture;  (* objects the callback allocated *)
  data_proxy : ProxyRef;
  data_isReady : bool;
  data_isAsync : bool
}.

(** A completion handler handed to the engine or to a promise, waiting to
    be run by the host event loop.  [_rebuild] returns with the handler
    pending; loaders that run the handler before the creation call
    returns are the subject of [_rebuild_timed]. *)
Inductive Pending :=
| OnUrlLoad (this : addr)              (* (temp) => { ... } *)
| OnCubeLoad (this proxy : addr)       (* () => { ... }, closes over proxy *)
| OnPrefilteredLoad (this : addr)      (* (proxy) => { ... } *)
| OnPromise (this : addr) (isReady : bool).  (* swapAndSetIsReady *)

(** A call either returns, possibly leaving a handler pending, or throws:
    a TypeError (a method called on null or undefined), or an exception
    raised by the engine. *)
Inductive Outcome :=
| Returned (w : World) (k : option Pending)
| Threw (w : World).

Definition world_of (o : Outcome) : World :=
  match o with Returned w _ => w | Threw w => w end.

Definition pending_of (o : Outcome) : option Pending :=
  match o with Returned _ k => k | Threw _ => None end.

(** ** Methods that do not depend on the engine's answers *)

(** [get uniqueId] and [get source]. *)
Definition uniqueId (w : World) (this : addr) : Z := _uniqueId (heap w this).
Definition source (w : World) (this : addr) : InternalTextureSource :=
  _source (heap w this).

(** [get useMipMaps] / [set useMipMaps]. *)
Definition useMipMaps (w : World) (this : addr) : bool :=
  generateMipMaps (heap w this).
Definition set_useMipMaps (this : addr) (value : bool) (w : World) : World :=
  upd this (set_generateMipMaps value) w.

Definition _setUniqueId (this : addr) (id : Z) (w : World) : World :=
  upd this (set__uniqueId id) w.

(** [new InternalTexture(engine, source, delayAllocation)].  The handle
    returned by [engine._createHardwareTexture()] is a new one. *)
Definition new_InternalTexture (source : InternalTextureSource)
  (delayAllocation : bool) (w : World) : addr * World :=
  let '(this, w) := alloc (InternalTexture_init source (Counter w)) w in
  let w := set_Counter (Counter w + 1) w in
  if negb delayAllocation then
    let h := nextHandle w in
    let w := emit (Ev_createHardwareTexture h) (set_nextHandle (S h) w) in
    (this, upd this (set__hardwareTexture (Some h)) w)
  else (this, w).

Definition incrementReferences (this : addr) (w : World) : World :=
  upd this (fun t => set__references (_references t + 1) t) w.

(** [cache.indexOf(x)]: [None] stands for -1. *)
Fixpoint indexOf (x : addr) (l : list addr) : option nat :=
  match l with
  | [] => None
  | y :: rest =>
      if Nat.eqb y x then Some O
      else match indexOf x rest with
           | Some i => Some (S i)
           | None => None
           end
  end.

(** [l.splice(i, 1)]. *)
Fixpoint splice1 (i : nat) (l : list addr) : list addr :=
  match l, i with
  | [], _ => []
  | _ :: rest, O => rest
  | y :: rest, S j => y :: splice1 j rest
  end.

(** One of the four derived-texture slots of [_swapAndDie]:
<<
    if (this.slot) {
        if (target.slot) { target.slot.dispose(); }
        target.slot = this.slot;
    }
>> *)
Definition move_slot (slot : InternalTexture -> option BaseTexture)
  (set_slot : option BaseTexture -> InternalTexture -> InternalTexture)
  (this target : addr) (w : World) : World :=
  match slot (heap w this) with
  | Some _ =>
      let w := match slot (heap w target) with
               | Some old => emit (Ev_BaseTexture_dispose old) w
               | None => w
               end in
      upd target (set_slot (slot (heap w this))) w
  | None => w
  end.

(** The cache update that ends [_swapAndDie]. *)
Definition swap_cache (this target : addr) (cache : list addr) : list addr :=
  let cache := match indexOf this cache with
               | Some index => splice1 index cache
               | None => cache
               end in
  match indexOf target cache with
  | None => cache ++ [target]
  | Some _ => cache
  end.

(** [this._hardwareTexture?.setUsage(target._source, ...)] *)
Definition notify_usage (this target : addr) (w : World) : World :=
  match _hardwareTexture (heap w this) with
  | Some h =>
      emit (Ev_setUsage h (_source (heap w target))
              (generateMipMaps (heap w this)) (isCube (heap w this))
              (width (heap w this)) (height (heap w this))) w
  | None => w
  end.

(** [target._hardwareTexture = this._hardwareTexture] *)
Definition assign_handle (this target : addr) (w : World) : World :=
  upd target (set__hardwareTexture (_hardwareTexture (heap w this))) w.

(** [target._isRGBD = this._isRGBD] *)
Definition assign_isRGBD (this target : addr) (w : World) : World :=
  upd target (set__isRGBD (_isRGBD (heap w this))) w.

Definition _swapAndDie (this target : addr) (swapAll : bool) (w : World)
  : World :=
  let w := emit (Call_swapAndDie this target swapAll) w in
  let w := notify_usage this target w in
  let w := assign_handle this target w in
  let w := if swapAll then assign_isRGBD this target w else w in
  let w := move_slot _lodTextureHigh set__lodTextureHigh this target w in
  let w := move_slot _lodTextureMid set__lodTextureMid this target w in
  let w := move_slot _lodTextureLow set__lodTextureLow this target w in
  let w := move_slot _irradianceTexture set__irradianceTexture this target w in
  set_cache (swap_cache this target (cache w)) w.

Definition dispose (this : addr) (w : World) : World :=
  let w := upd this (fun t => set__references (_references t - 1) t) w in
  let w := upd this (set_onLoadedObservable []) w in
  let w := upd this (set_onErrorObservable []) w in
  if _references (heap w this) =? 0 then
    let w := emit (Ev_releaseTexture this) w in
    upd this (set__hardwareTexture None) w
  else w.

(** ** Arithmetic on numbers *)

(** A JavaScript number is a double.  [round_double z] is the double
    nearest to the integer [z] (53 significant bits, ties to the even
    significand); it is [z] itself up to 2^53.  Magnitudes from 2^1024 on,
    which a double turns into Infinity, are outside this model. *)
Definition round_double (z : Z) : Z :=
  let a := Z.abs z in
  let e := Z.log2 a - 52 in
  if e <=? 0 then z
  else
    let q := Z.shiftr a e in
    let r := a - Z.shiftl q e in
    let half := Z.shiftl 1 (e - 1) in
    let q' := if r <? half then q
              else if half <? r then q + 1
              else if Z.even q then q else q + 1 in
    Z.sgn z * Z.shiftl q' e.

(** The same through the Standard Library's IEEE 754 operations, at the
    binary64 format: the integer held by a double, the double of an
    integer, and the product of the doubles of three integers. *)
Definition ieee_integer (x : SpecFloat.spec_float) : option Z :=
  match x with
  | SpecFloat.S754_zero _ => Some 0
  | SpecFloat.S754_finite sign m e =>
      let sgn := if sign then -1 else 1 in
      if 0 <=? e then Some (sgn * (Z.pos m * 2 ^ e))
      else if Z.pos m mod 2 ^ (- e) =? 0
           then Some (sgn * (Z.pos m / 2 ^ (- e)))
           else None
  | _ => None
  end.

Definition ieee_of_Z (z : Z) : SpecFloat.spec_float :=
  SpecFloat.binary_normalize 53 1024 z 0 false.

Definition ieee_product (a b c : Z) : option Z :=
  ieee_integer
    (SpecFloat.SFmul 53 1024
       (SpecFloat.SFmul 53 1024 (ieee_of_Z a) (ieee_of_Z b)) (ieee_of_Z c)).

(** [a * b] on integer-valued doubles: the exact product, rounded. *)
Definition number_mul (a b : Z) : Z := round_double (a * b).

(** ** Methods that call into the engine *)

Section WithEngine.

Variable engine : Engine.

(** The registered [onRebuildCallback]s: run on the descriptor, a callback
    may allocate descriptors of its own and answers with its data. *)
Variable onRebuild : CallbackId -> addr -> World -> RebuildData.

(** Whether [engine.updateTextureDimensions] throws on a request, in the
    world in which it is made. *)
Variable resize_throws : addr -> Z -> Z -> Z -> World -> bool.

(** [updateSize(width, height, depth = 1)].  An exception of the engine's
    resize propagates: the assignments are not reached.  The size is
    [width * height * depth] as JavaScript computes it, on doubles, from
    left to right. *)
Definition updateSize (this : addr) (width height : Z) (depth : option Z)
  (w : World) : Outcome :=
  let depth := match depth with Some d => d | None => 1 end in
  let call := Ev_updateTextureDimensions this width height depth in
  if resize_throws this width height depth w then Threw (emit call w)
  else
    let w := emit call w in
    let w := upd this
               (fun t =>
                  engine_updateTextureDimensions engine t width height depth)
               w in
    let w := upd this (set_width width) w in
    let w := upd this (set_height height) w in
    let w := upd this (set_depth depth) w in
    let w := upd this (set_baseWidth width) w in
    let w := upd this (set_baseHeight height) w in
    let w := upd this (set_baseDepth depth) w in
    Returned
      (upd this (set__size (number_mul (number_mul width height) depth)) w)
      None.

(** A creation entry point of the engine: a new descriptor comes back. *)
Definition engine_create (call : CreateCall) (w : World) : addr * World :=
  let '(proxy, w1) := alloc (engine_newTexture engine call w) w in
  let w1 := emit (Ev_create call proxy) w1 in
  (proxy,
   if engine_registers engine call w
   then set_cache (cache w1 ++ [proxy]) w1
   else w1).

Definition engine_updateDynamicTexture (texture : addr) (invertY : bool)
  (w : World) : World :=
  let w := emit (Ev_updateDynamicTexture texture invertY) w in
  if engine_dynamicReady engine w then upd texture (set_isReady true) w else w.

(** The assignments that open [_rebuild]. *)
Definition rebuild_reset (this : addr) (w : World) : World :=
  let w := upd this (set_isReady false) w in
  let w := upd this (set__cachedCoordinatesMode None) w in
  let w := upd this (fun t => set_sampler (set__cachedWrapU None (sampler t)) t) w in
  let w := upd this (fun t => set_sampler (set__cachedWrapV None (sampler t)) t) w in
  let w := upd this (fun t => set_sampler (set__cachedWrapR None (sampler t)) t) w in
  upd this
    (fun t =>
       set_sampler (set__cachedAnisotropicFilteringLevel None (sampler t)) t) w.

(** The body shared by the completion handlers: transfer, then flag. *)
Definition swap_then_ready (proxy this : addr) (ready : bool) (w : World)
  : World :=
  let w := _swapAndDie proxy this false w in
  upd this (set_isReady ready) w.

(** [if (this.onRebuildCallback) { ... return; }] *)
Definition rebuild_custom (cb : CallbackId) (this : addr) (w : World)
  : Outcome :=
  let data := onRebuild cb this w in
  let w := alloc_all (data_created data) w in
  if data_isAsync data then
    match data_proxy data with
    | ProxyPromise => Returned w (Some (OnPromise this (data_isReady data)))
    | _ => Threw w
    end
  else
    match data_proxy data with
    | ProxyTexture p =>
        Returned (swap_then_ready p this (data_isReady data) w) None
    | _ => Threw w
    end.

(** [switch (this.source) { ... }] *)
Definition rebuild_switch (this : addr) (w : World) : Outcome :=
  let t := heap w this in
  match source w this with
  | Temp => Returned w None
  | Url =>
      let '(_, w) :=
        engine_create
          (createTexture
             (match _originalUrl t with Some u => u | None => url t end)
             (negb (generateMipMaps t)) (invertY t) (samplingMode (sampler t))
             (_buffer t) (format t) (_extension t) (_useSRGBBuffer t)) w in
      Returned w (Some (OnUrlLoad this))
  | Raw =>
      let '(proxy, w) :=
        engine_create
          (createRawTexture (_bufferView t) (baseWidth t) (baseHeight t)
             (format t) (generateMipMaps t) (invertY t)
             (samplingMode (sampler t)) (_compression t) (type t)
             (_useSRGBBuffer t)) w in
      Returned (swap_then_ready proxy this true w) None
  | Raw3D =>
      let '(proxy, w) :=
        engine_create
          (createRawTexture3D (_bufferView t) (baseWidth t) (baseHeight t)
             (baseDepth t) (format t) (generateMipMaps t) (invertY t)
             (samplingMode (sampler t)) (_compression t) (type t)) w in
      Returned (swap_then_ready proxy this true w) None
  | Raw2DArray =>
      let '(proxy, w) :=
        engine_create
          (createRawTexture2DArray (_bufferView t) (baseWidth t)
             (baseHeight t) (baseDepth t) (format t) (generateMipMaps t)
             (invertY t) (samplingMode (sampler t)) (_compression t)
             (type t)) w in
      Returned (swap_then_ready proxy this true w) None
  | Dynamic =>
      let '(proxy, w) :=
        engine_create
          (createDynamicTexture (baseWidth t) (baseHeight t)
             (generateMipMaps t) (samplingMode (sampler t))) w in
      let w := _swapAndDie proxy this false w in
      Returned (engine_updateDynamicTexture this (invertY (heap w this)) w)
               None
  | Cube =>
      let '(proxy, w) :=
        engine_create
          (createCubeTexture (url t) (_files t) (negb (generateMipMaps t))
             (format t) (_extension t) (_useSRGBBuffer t)) w in
      Returned w (Some (OnCubeLoad this proxy))
  | CubeRaw =>
      let '(proxy, w) :=
        engine_create
          (createRawCubeTexture (_bufferViewArray t) (width t) (format t)
             (type t) (generateMipMaps t) (invertY t)
             (samplingMode (sampler t)) (_compression t)) w in
      Returned (swap_then_ready proxy this true w) None
  | CubeRawRGBD => Returned w None
  | CubePrefiltered =>
      let '(proxy, w) :=
        engine_create
          (createPrefilteredCubeTexture (url t) (_lodGenerationScale t)
             (_lodGenerationOffset t) (format t) (_extension t)) w in
      let w :=
        upd proxy (set__sphericalPolynomial (_sphericalPolynomial (heap w this)))
            w in
      Returned w (Some (OnPrefilteredLoad this))
  | _ => Returned w None
  end.

Definition rebuild_recreate (this : addr) (w : World) : Outcome :=
  match onRebuildCallback (heap w this) with
  | Some cb => rebuild_custom cb this w
  | None => rebuild_switch this w
  end.

Definition _rebuild (this : addr) (w : World) : Outcome :=
  rebuild_recreate this (rebuild_reset this w).

(** Running a pending completion handler.  [arg] is the argument the
    engine (or the promise) passes; the cube handler takes none. *)
Definition resume (k : Pending) (arg : option addr) (w : World) : Outcome :=
  match k with
  | OnUrlLoad this =>
      match arg with
      | Some temp => Returned (swap_then_ready temp this true w) None
      | None => Threw w
      end
  | OnCubeLoad this proxy =>
      Returned (swap_then_ready proxy this true w) None
  | OnPrefilteredLoad this =>
      let w := match arg with
               | Some proxy => _swapAndDie proxy this false w
               | None => w
               end in
      Returned (upd this (set_isReady true) w) None
  | OnPromise this ready =>
      match arg with
      | Some proxy => Returned (swap_then_ready proxy this ready w) None
      | None => Threw w
      end
  end.

End WithEngine.

(** ** Loaders that complete before the creation call returns *)

(** When the engine runs the completion handler it was given by a
    creation call: later, through the host event loop, or before the call
    returns, with the texture it hands to the handler (none for null). *)
Inductive Completion :=
| Deferred
| Immediate (arg : option addr).

Section WithLoader.

Variable engine : Engine.
Variable onRebuild : CallbackId -> addr -> World -> RebuildData.

(** What the engine does with the handler of a creation call, decided in
    the world in which the call is made. *)
Variable loader : CreateCall -> World -> Completion.

(** The three cases of the switch that hand a completion handler to the
    engine, with the time at which the engine runs it.  A handler run
    before the creation call returns runs after the engine has made the
    new descriptor, and an exception it throws propagates through the
    call.  In the [Cube] case the handler reads the variable [proxy],
    which is assigned only when the call returns: run before that, it
    calls a method on undefined.  In the [CubePrefiltered] case the
    assignment of [_sphericalPolynomial] follows the call, hence the
    handler.  The other cases pass no handler. *)
Definition rebuild_switch_timed (this : addr) (w : World) : Outcome :=
  let t := heap w this in
  match source w this with
  | Url =>
      let call :=
        createTexture
          (match _originalUrl t with Some u => u | None => url t end)
          (negb (generateMipMaps t)) (invertY t) (samplingMode (sampler t))
          (_buffer t) (format t) (_extension t) (_useSRGBBuffer t) in
      let '(_, w1) := engine_create engine call w in
      match loader call w with
      | Deferred => Returned w1 (Some (OnUrlLoad this))
      | Immediate arg =>
          match resume (OnUrlLoad this) arg w1 with
          | Returned w2 _ => Returned w2 None
          | Threw w2 => Threw w2
          end
      end
  | Cube =>
      let call :=
        createCubeTexture (url t) (_files t) (negb (generateMipMaps t))
          (format t) (_extension t) (_useSRGBBuffer t) in
      let '(proxy, w1) := engine_create engine call w in
      match loader call w with
      | Deferred => Returned w1 (Some (OnCubeLoad this proxy))
      | Immediate _ => Threw w1
      end
  | CubePrefiltered =>
      let call :=
        createPrefilteredCubeTexture (url t) (_lodGenerationScale t)
          (_lodGenerationOffset t) (format t) (_extension t) in
      let '(proxy, w1) := engine_create engine call w in
      match loader call w with
      | Deferred =>
          Returned
            (upd proxy
               (set__sphericalPolynomial (_sphericalPolynomial (heap w1 this)))
               w1)
            (Some (OnPrefilteredLoad this))
      | Immediate arg =>
          let w2 := world_of (resume (OnPrefilteredLoad this) arg w1) in
          Returned
            (upd proxy
               (set__sphericalPolynomial (_sphericalPolynomial (heap w2 this)))
               w2)
            None
      end
  | _ => rebuild_switch engine this w
  end.

Definition rebuild_recreate_timed (this : addr) (w : World) : Outcome :=
  match onRebuildCallback (heap w this) with
  | Some cb => rebuild_custom onRebuild cb this w
  | None => rebuild_switch_timed this w
  end.

(** [_rebuild()] with the engine's timing of the handlers; [_rebuild]
    above is the case in which every handler is deferred. *)
Definition _rebuild_timed (this : addr) (w : World) : Outcome :=
  rebuild_recreate_timed this (rebuild_reset this w).

End WithLoader.

(** ** Observations used by the statements *)

Definition references (w : World) (this : addr) : Z :=
  _references (heap w this).

Definition handle_of (w : World) (this : addr) : option Handle :=
  _hardwareTexture (heap w this).

Definition is_release (this : addr) (e : Event) : bool :=
  match e with
  | Ev_releaseTexture a => Nat.eqb a this
  | _ => false
  end.

(** How many times [engine._releaseTexture(this)] has been called. *)
Definition releases (w : World) (this : addr) : nat :=
  List.length (filter (is_release this) (trace w)).

Definition is_create (e : Event) : bool :=
  match e with
  | Ev_create _ _ => true
  | _ => false
  end.

(** A use of the reference counter by one of the owners. *)
Inductive RefOp := OpIncrement | OpDispose.

Definition apply_op (this : addr) (op : RefOp) (w : World) : World :=
  match op with
  | OpIncrement => incrementReferences this w
  | OpDispose => dispose this w
  end.

Fixpoint run_ops (this : addr) (ops : list RefOp) (w : World) : World :=
  match ops with
  | [] => w
  | op :: rest => run_ops this rest (apply_op this op w)
  end.

(** Every state of the run, the first one included. *)
Fixpoint history (this : addr) (ops : list RefOp) (w : World) : list World :=
  w :: match ops with
       | [] => []
       | op :: rest => history this rest (apply_op this op w)
       end.

(** The steps of the run at which the count goes from 1 to 0. *)
Fixpoint drops_to_zero (this : addr) (ops : list RefOp) (w : World) : nat :=
  match ops with
  | [] => O
  | op :: rest =>
      let w' := apply_op this op w in
      Nat.add
        (if (references w this =? 1) && (references w' this =? 0)
         then 1%nat else 0%nat)
        (drops_to_zero this rest w')
  end.

(** No [dispose()] on a descriptor whose count is already 0 (or less). *)
Fixpoint never_over_disposed (this : addr) (ops : list RefOp) (w : World)
  : bool :=
  match ops with
  | [] => true
  | op :: rest =>
      match op with
      | OpIncrement => true
      | OpDispose => 0 <? references w this
      end && never_over_disposed this rest (apply_op this op w)
  end.

(** Handles are exclusive among the descriptors listed in [l]: two entries
    holding the same handle are the same descriptor. *)
Definition exclusive_handles (w : World) (l : list addr) : Prop :=
  forall a b h,
    In a l -> In b l ->
    handle_of w a = Some h -> handle_of w b = Some h -> a = b.

(** The sources for which [_rebuild] has no case of its own, together with
    the two whose case does nothing. *)
Definition rebuild_inert (s : InternalTextureSource) : bool :=
  match s with
  | Temp | CubeRawRGBD | Unknown
  | RenderTarget | MultiRenderTarget | DepthStencil | Depth => true
  | _ => false
  end.

(** The transfers recorded in a trace. *)
Definition is_transfer (e : Event) : bool :=
  match e with
  | Call_swapAndDie _ _ _ => true
  | _ => false
  end.

Definition transfers (w : World) : list Event :=
  filter is_transfer (trace w).

(** A transfer into [this] made with [swapAll] off. *)
Definition unflagged_into (this : addr) (e : Event) : Prop :=
  exists proxy, e = Call_swapAndDie proxy this false.

(** The descriptor a pending handler will transfer into. *)
Definition pending_this (k : Pending) : addr :=
  match k with
  | OnUrlLoad this | OnCubeLoad this _ | OnPrefilteredLoad this
  | OnPromise this _ => this
  end.

(** The descriptor as the opening assignments of [_rebuild] leave it. *)
Definition cleared (t : InternalTexture) : InternalTexture :=
  set_sampler (mkSampler (samplingMode (sampler t)) None None None None)
    (set__cachedCoordinatesMode None (set_isReady false t)).

(** [field] is none of the fields that [_rebuild] and the transfers it
    performs assign: the ready flag, the cached sampler state, the handle
    and the four derived-texture slots. *)
Definition rebuild_frame {A} (field : InternalTexture -> A) : Prop :=
  (forall v x, field (set_isReady v x) = field x)
  /\ (forall v x, field (set__cachedCoordinatesMode v x) = field x)
  /\ (forall v x, field (set_sampler v x) = field x)
  /\ (forall v x, field (set__hardwareTexture v x) = field x)
  /\ (forall v x, field (set__lodTextureHigh v x) = field x)
  /\ (forall v x, field (set__lodTextureMid v x) = field x)
  /\ (forall v x, field (set__lodTextureLow v x) = field x)
  /\ (forall v x, field (set__irradianceTexture v x) = field x).


(** ** Concrete worlds for the examples *)

Definition empty_world : World :=
  mkWorld (fun _ => InternalTexture_init Unknown 0) O 0 O [] [].

(** An engine that hands back blank descriptors and registers them. *)
Definition plain_engine : Engine :=
  mkEngine (fun _ w => InternalTexture_init Unknown (Counter w))
           (fun _ _ => true)
           (fun t _ _ _ => t)
           (fun _ => true).

Definition no_callbacks : CallbackId -> addr -> World -> RebuildData :=
  fun _ _ _ => mkRebuildData [] ProxyNull false false.

(** An engine whose resize always succeeds, and one whose resize always
    throws. *)
Definition resize_ok : addr -> Z -> Z -> Z -> World -> bool :=
  fun _ _ _ _ _ => false.

(** A loader that completes at once with the descriptor just created, and
    one that always defers. *)
Definition eager_loader : CreateCall -> World -> Completion :=
  fun _ w => Immediate (Some (nextAddr w)).
Definition lazy_loader : CreateCall -> World -> Completion :=
  fun _ _ => Deferred.

(** The handlers that [_rebuild] hands to the engine's loaders. *)
Definition loader_handler (k : Pending) : bool :=
  match k with
  | OnPromise _ _ => false
  | _ => true
  end.

(** One descriptor of the given source, as the constructor leaves it. *)
Definition one_texture (s : InternalTextureSource) : addr * World :=
  new_InternalTexture s false empty_world.

(** A [Temp] descriptor flagged ready, with cached sampler state. *)
Definition ready_temp : addr * World :=
  let '(this, w) := one_texture Temp in
  (this, upd this (set_isReady true) w).

(** Two descriptors: a persistent [Raw] one (address 0, in the cache) and
    a replacement (address 1, in the cache as well). *)
Definition two_textures : World :=
  let '(a, w) := new_InternalTexture Raw false empty_world in
  let '(b, w) := new_InternalTexture Raw false w in
  set_cache [a; b] w.

(** An engine whose new descriptors come with hardware handle 42. *)
Definition loading_engine : Engine :=
  mkEngine (fun _ w =>
              set__hardwareTexture (Some 42%nat)
                (InternalTexture_init Url (Counter w)))
           (fun _ _ => true)
           (fun t _ _ _ => t)
           (fun _ => true).

(** [two_textures] with derived textures: the replacement (1) holds a
    high LOD texture 5, the persistent descriptor (0) an older one, 9. *)
Definition two_textures_lod : World :=
  upd 0%nat (set__lodTextureHigh (Some 9%nat))
    (upd 1%nat (set__lodTextureHigh (Some 5%nat)) two_textures).

(** ** Further observations *)

(** Several constructions in a row, each with its source and its
    [delayAllocation] flag; the new descriptors come back in order. *)
Fixpoint new_many (reqs : list (InternalTextureSource * bool)) (w : World)
  : list addr * World :=
  match reqs with
  | [] => ([], w)
  | (src, delay) :: rest =>
      let '(a, w1) := new_InternalTexture src delay w in
      let '(l, w2) := new_many rest w1 in
      (a :: l, w2)
  end.

(** Increments minus disposals. *)
Fixpoint net_change (ops : list RefOp) : Z :=
  match ops with
  | [] => 0
  | OpIncrement :: rest => net_change rest + 1
  | OpDispose :: rest => net_change rest - 1
  end.

(** [field] is none of the fields that [dispose] assigns. *)
Definition dispose_frame {A} (field : InternalTexture -> A) : Prop :=
  (forall v x, field (set__references v x) = field x)
  /\ (forall v x, field (set_onLoadedObservable v x) = field x)
  /\ (forall v x, field (set_onErrorObservable v x) = field x)
  /\ (forall v x, field (set__hardwareTexture v x) = field x).

(** [field] is neither the count nor one of the two observables. *)
Definition count_frame {A} (field : InternalTexture -> A) : Prop :=
  (forall v x, field (set__references v x) = field x)
  /\ (forall v x, field (set_onLoadedObservable v x) = field x)
  /\ (forall v x, field (set_onErrorObservable v x) = field x).

(** [field] is none of the fields that [_swapAndDie] may assign. *)
Definition transfer_frame {A} (field : InternalTexture -> A) : Prop :=
  (forall v x, field (set__hardwareTexture v x) = field x)
  /\ (forall v x, field (set__isRGBD v x) = field x)
  /\ (forall v x, field (set__lodTextureHigh v x) = field x)
  /\ (forall v x, field (set__lodTextureMid v x) = field x)
  /\ (forall v x, field (set__lodTextureLow v x) = field x)
  /\ (forall v x, field (set__irradianceTexture v x) = field x).

(** The [setUsage] call a transfer from [src] into [tgt] makes. *)
Definition usage_notice (src tgt : InternalTexture) : list Event :=
  match _hardwareTexture src with
  | Some h =>
      [Ev_setUsage h (_source tgt) (generateMipMaps src) (isCube src)
         (width src) (height src)]
  | None => []
  end.

(** The [dispose()] call a transfer makes for one derived-texture slot. *)
Definition slot_disposal (slot : InternalTexture -> option BaseTexture)
  (src tgt : InternalTexture) : list Event :=
  match slot src, slot tgt with
  | Some _, Some old => [Ev_BaseTexture_dispose old]
  | _, _ => []
  end.

(** What a slot of the target holds after a transfer. *)
Definition taken_slot (slot : InternalTexture -> option BaseTexture)
  (src tgt : InternalTexture) : option BaseTexture :=
  match slot src with
  | Some b => Some b
  | None => slot tgt
  end.

(** The creation calls recorded in a trace. *)
Definition creates (w : World) : list Event :=
  filter is_create (trace w).


(** The kinds of entries [_swapAndDie] adds to the trace. *)
Definition transfer_event (e : Event) : bool :=
  match e with
  | Ev_setUsage _ _ _ _ _ _ | Ev_BaseTexture_dispose _
  | Call_swapAndDie _ _ _ => true
  | _ => false
  end.


(** The cache lists existing descriptors, each at most once. *)
Definition cache_ok (w : World) : Prop :=
  NoDup (cache w) /\ Forall (allocated w) (cache w).

(** Sources that [_rebuild] recreates before it returns. *)
Definition rebuild_sync (s : InternalTextureSource) : bool :=
  match s with
  | Raw | Raw3D | Raw2DArray | CubeRaw => true
  | _ => false
  end.

(** Sources that [_rebuild] recreates through a completion handler. *)
Definition rebuild_async (s : InternalTextureSource) : bool :=
  match s with
  | Url | Cube | CubePrefiltered => true
  | _ => false
  end.

(** Neither the source nor the target of the transfer. *)
Definition bystander (s t a : addr) : bool :=
  negb (Nat.eqb a s) && negb (Nat.eqb a t).

(** The sizes of a descriptor. *)
Definition geometry (t : InternalTexture) : Z * Z * Z * (Z * Z * Z) * Z :=
  (width t, height t, depth t,
   (baseWidth t, baseHeight t, baseDepth t), _size t).

(** The descriptor a completion handler transfers from: the one its
    closure holds for the cube handler, its argument for the others. *)
Definition handler_proxy (k : Pending) (arg : option addr) : option addr :=
  match k with
  | OnCubeLoad _ proxy => Some proxy
  | _ => arg
  end.

(** The ready flag a completion handler assigns. *)
Definition handler_ready (k : Pending) : bool :=
  match k with
  | OnPromise _ ready => ready
  | _ => true
  end.


(** Callbacks that answer at once with a descriptor of their own making,
    holding handle 7, and ask for the ready flag. *)
Definition proxy_callbacks : CallbackId -> addr -> World -> RebuildData :=
  fun _ _ w =>
    mkRebuildData
      [set__hardwareTexture (Some 7%nat) (InternalTexture_init Raw 0)]
      (ProxyTexture (nextAddr w)) true false.

(** A [Raw] descriptor with a rebuild callback registered. *)
Definition with_callback : addr * World :=
  let '(this, w) := one_texture Raw in
  (this, upd this (set_onRebuildCallback (Some 0%nat)) w).

(** ** Store lemmas *)

Lemma override_same h a t : override h a t a = t.
Proof. unfold override. now rewrite Nat.eqb_refl. Qed.

Lemma override_other h a t b : b <> a -> override h a t b = h b.
Proof.
  intros Hne. unfold override.
  destruct (Nat.eqb_spec b a); [contradiction | reflexivity].
Qed.

Lemma heap_upd_same a f w : heap (upd a f w) a = f (heap w a).
Proof. apply override_same. Qed.

Lemma heap_upd_other a f w b : b <> a -> heap (upd a f w) b = heap w b.
Proof. apply override_other. Qed.

Lemma heap_upd a f w b :
  heap (upd a f w) b = if Nat.eqb b a then f (heap w a) else heap w b.
Proof. reflexivity. Qed.

(** A field that the assignment [f] leaves alone is left alone by [upd],
    whichever object is read. *)
Lemma upd_preserves {A} (field : InternalTexture -> A) a f w b :
  (forall t, field (f t) = field t) ->
  field (heap (upd a f w) b) = field (heap w b).
Proof.
  intros Hf. rewrite heap_upd.
  destruct (Nat.eqb_spec b a) as [-> | _]; [apply Hf | reflexivity].
Qed.

Lemma trace_upd a f w : trace (upd a f w) = trace w.
Proof. reflexivity. Qed.

Lemma cache_upd a f w : cache (upd a f w) = cache w.
Proof. reflexivity. Qed.

Lemma heap_emit e w : heap (emit e w) = heap w.
Proof. reflexivity. Qed.

Lemma trace_emit e w : trace (emit e w) = trace w ++ [e].
Proof. reflexivity. Qed.

Arguments upd : simpl never.
Arguments emit : simpl never.
Arguments override : simpl never.

Create Rewrite HintDb store.
#[local] Hint Rewrite heap_emit heap_upd_same trace_upd trace_emit cache_upd
  : store.

(** Push reads through the writes that precede them. *)
Ltac store := repeat (autorewrite with store; cbn).

(** ** Reference counting *)

Lemma references_increment this w :
  references (incrementReferences this w) this = references w this + 1.
Proof. unfold references, incrementReferences. now store. Qed.

Lemma trace_increment this w : trace (incrementReferences this w) = trace w.
Proof. reflexivity. Qed.

Lemma handle_increment this w :
  handle_of (incrementReferences this w) this = handle_of w this.
Proof. unfold handle_of, incrementReferences. now store. Qed.

(** The count that [dispose] tests is the decremented one. *)
Lemma dispose_unfold this w :
  dispose this w =
  let w1 := upd this (set_onErrorObservable [])
              (upd this (set_onLoadedObservable [])
                 (upd this (fun t => set__references (_references t - 1) t) w)) in
  if references w this =? 1
  then upd this (set__hardwareTexture None) (emit (Ev_releaseTexture this) w1)
  else w1.
Proof.
  unfold dispose, references. cbv zeta. store.
  destruct (Z.eqb_spec (_references (heap w this)) 1) as [E | E];
    destruct (Z.eqb_spec (_references (heap w this) - 1) 0); (reflexivity || lia).
Qed.

Lemma references_dispose this w :
  references (dispose this w) this = references w this - 1.
Proof.
  rewrite dispose_unfold. cbv zeta. unfold references at 1 3.
  destruct (references w this =? 1); now store.
Qed.

Lemma trace_dispose this w :
  trace (dispose this w) =
  if references w this =? 1 then trace w ++ [Ev_releaseTexture this]
  else trace w.
Proof.
  rewrite dispose_unfold. cbv zeta.
  destruct (references w this =? 1); reflexivity.
Qed.

Lemma handle_dispose this w :
  handle_of (dispose this w) this =
  if references w this =? 1 then None else handle_of w this.
Proof.
  rewrite dispose_unfold. cbv zeta. unfold handle_of.
  destruct (references w this =? 1); now store.
Qed.

Lemma new_InternalTexture_this src delay w :
  fst (new_InternalTexture src delay w) = nextAddr w.
Proof. unfold new_InternalTexture. cbn. now destruct delay. Qed.

Lemma new_InternalTexture_references src delay w :
  references (snd (new_InternalTexture src delay w))
             (fst (new_InternalTexture src delay w)) = 1.
Proof.
  unfold new_InternalTexture, references. cbn.
  destruct delay; cbn; store; rewrite ?override_same; reflexivity.
Qed.

Lemma run_ops_app this ops1 ops2 w :
  run_ops this (ops1 ++ ops2) w = run_ops this ops2 (run_ops this ops1 w).
Proof. revert w. induction ops1 as [| op ops1 IH]; intros w; cbn; auto. Qed.

Lemma references_apply_op this op w :
  references (apply_op this op w) this =
  match op with
  | OpIncrement => references w this + 1
  | OpDispose => references w this - 1
  end.
Proof. destruct op; [apply references_increment | apply references_dispose]. Qed.

Lemma trace_apply_op this op w :
  trace (apply_op this op w) =
  trace w ++
  (if (references w this =? 1) && (references (apply_op this op w) this =? 0)
   then [Ev_releaseTexture this] else []).
Proof.
  rewrite references_apply_op. destruct op; cbn [apply_op].
  - rewrite trace_increment.
    destruct (Z.eqb_spec (references w this) 1) as [-> | _]; cbn;
      now rewrite app_nil_r.
  - rewrite trace_dispose.
    destruct (Z.eqb_spec (references w this) 1) as [-> | _]; cbn;
      [reflexivity | now rewrite app_nil_r].
Qed.

(** Only releases are emitted by a run, one for each drop to zero. *)
Lemma trace_run_ops this ops w :
  trace (run_ops this ops w) =
  trace w ++ repeat (Ev_releaseTexture this) (drops_to_zero this ops w).
Proof.
  revert w. induction ops as [| op ops IH]; intros w; cbn [run_ops drops_to_zero].
  - cbn. now rewrite app_nil_r.
  - rewrite IH, trace_apply_op, <- app_assoc. f_equal.
    now destruct ((references w this =? 1)
                  && (references (apply_op this op w) this =? 0)).
Qed.

Lemma history_nonneg this ops w :
  0 <= references w this ->
  never_over_disposed this ops w = true ->
  Forall (fun w' => 0 <= references w' this) (history this ops w).
Proof.
  revert w. induction ops as [| op ops IH]; intros w Hw Hok.
  - cbn. auto.
  - cbn [history]. constructor; [exact Hw |].
    cbn [never_over_disposed] in Hok. apply andb_true_iff in Hok as [Hop Hrest].
    apply IH; [| exact Hrest].
    rewrite references_apply_op. destruct op; [lia |].
    apply Z.ltb_lt in Hop. lia.
Qed.

Lemma run_increments this n w :
  references (run_ops this (repeat OpIncrement n) w) this
  = references w this + Z.of_nat n
  /\ trace (run_ops this (repeat OpIncrement n) w) = trace w
  /\ handle_of (run_ops this (repeat OpIncrement n) w) this = handle_of w this.
Proof.
  revert w. induction n as [| n IH]; intros w.
  - cbn. repeat split; lia.
  - cbn [repeat run_ops apply_op]. destruct (IH (incrementReferences this w)) as (R & T & H).
    rewrite R, T, H, references_increment, trace_increment, handle_increment.
    repeat split; lia.
Qed.

(** Disposals that stay clear of the count 1 release nothing. *)
Lemma run_disposals_quiet this n w :
  (references w this <= 0 \/ Z.of_nat n < references w this) ->
  references (run_ops this (repeat OpDispose n) w) this
  = references w this - Z.of_nat n
  /\ trace (run_ops this (repeat OpDispose n) w) = trace w
  /\ handle_of (run_ops this (repeat OpDispose n) w) this = handle_of w this.
Proof.
  revert w. induction n as [| n IH]; intros w Hw.
  - cbn. repeat split; lia.
  - cbn [repeat run_ops apply_op].
    destruct (IH (dispose this w)) as (R & T & H).
    { rewrite references_dispose. lia. }
    rewrite R, T, H, references_dispose, trace_dispose, handle_dispose.
    destruct (Z.eqb_spec (references w this) 1) as [E | _]; [lia |].
    repeat split; lia.
Qed.

(** C1, as stated, fails on the code: [dispose()] decrements without
    looking at the count, so a second disposal of a new descriptor drives
    [_references] to -1; a run with no disposal releases nothing; and a
    count that is brought back from 0 to 1 and disposed again releases a
    second time. *)
Lemma C1_counterexample :
  let this := fst (one_texture Raw) in
  let w0 := snd (one_texture Raw) in
  references w0 this = 1
  /\ references (run_ops this [OpDispose; OpDispose] w0) this = -1
  /\ releases (run_ops this [] w0) this = 0%nat
  /\ releases (run_ops this [OpDispose; OpIncrement; OpDispose] w0) this
     = 2%nat.
Proof. cbv zeta. repeat split; reflexivity. Qed.

(** C1 (amended): from creation (count 1), for every finite sequence of
    [incrementReferences()] and [dispose()] calls in which [dispose()] is
    never called on a count that is already 0, the count is >= 0 at every
    step, and the only calls the run makes on the engine are
    [_releaseTexture(this)], one at each step where the count goes from 1
    to 0. *)
Theorem C1_refcount_discipline src delay w ops :
  let this := fst (new_InternalTexture src delay w) in
  let w0 := snd (new_InternalTexture src delay w) in
  never_over_disposed this ops w0 = true ->
  references w0 this = 1
  /\ Forall (fun w' => 0 <= references w' this) (history this ops w0)
  /\ trace (run_ops this ops w0)
     = trace w0 ++ repeat (Ev_releaseTexture this) (drops_to_zero this ops w0)
  /\ releases (run_ops this ops w0) this
     = (releases w0 this + drops_to_zero this ops w0)%nat.
Proof.
  intros this w0 Hok.
  assert (H1 : references w0 this = 1)
    by apply new_InternalTexture_references.
  split; [exact H1 |]. split; [| split].
  - apply history_nonneg; [lia | exact Hok].
  - apply trace_run_ops.
  - unfold releases. rewrite trace_run_ops, filter_app, length_app. f_equal.
    induction (drops_to_zero this ops w0) as [| n IH]; [reflexivity |].
    cbn. rewrite Nat.eqb_refl. cbn. now rewrite IH.
Qed.

Lemma C1_refcount_discipline_witness :
  let ops := [OpIncrement; OpDispose; OpDispose] in
  let this := fst (new_InternalTexture Raw false empty_world) in
  let w0 := snd (new_InternalTexture Raw false empty_world) in
  never_over_disposed this ops w0 = true
  /\ Forall (fun w' => 0 <= references w' this) (history this ops w0)
  /\ releases (run_ops this ops w0) this = 1%nat.
Proof.
  cbv zeta. split; [reflexivity |].
  destruct (C1_refcount_discipline Raw false empty_world
              [OpIncrement; OpDispose; OpDispose] eq_refl)
    as (_ & Hnonneg & _ & Hrel).
  split; [exact Hnonneg | exact Hrel].
Defined.

(** C2, as stated, fails on the code in its last part: a [dispose()] that
    comes after the releasing one is neither rejected nor a no-op, it
    decrements the count below zero. *)
Lemma C2_counterexample :
  let this := fst (one_texture Raw) in
  let w1 := dispose this (snd (one_texture Raw)) in
  references w1 this = 0
  /\ handle_of w1 this = None
  /\ references (dispose this w1) this = -1
  /\ dispose this w1 <> w1.
Proof.
  cbv zeta. repeat split; try reflexivity.
  intros Heq.
  apply (f_equal (fun w => references w (fst (one_texture Raw)))) in Heq.
  vm_compute in Heq. discriminate Heq.
Qed.

(** C2 (amended): for every N, from creation, N [incrementReferences()]
    followed by N+1 [dispose()] call [_releaseTexture] exactly once, on the
    last disposal, and leave [_hardwareTexture] null; any k further
    [dispose()] calls make no call on the engine and leave the handle null,
    but each of them still decrements the count, which ends at -k. *)
Theorem C2_release_once src delay w (N k : nat) :
  let this := fst (new_InternalTexture src delay w) in
  let w0 := snd (new_InternalTexture src delay w) in
  let w1 := run_ops this (repeat OpIncrement N ++ repeat OpDispose N) w0 in
  let w2 := dispose this w1 in
  let w3 := run_ops this (repeat OpDispose k) w2 in
  run_ops this (repeat OpIncrement N ++ repeat OpDispose (N + 1)) w0 = w2
  /\ trace w1 = trace w0
  /\ trace w2 = trace w0 ++ [Ev_releaseTexture this]
  /\ handle_of w2 this = None
  /\ trace w3 = trace w2
  /\ handle_of w3 this = None
  /\ references w3 this = - Z.of_nat k.
Proof.
  intros this w0 w1 w2 w3.
  pose proof (new_InternalTexture_references src delay w) as H0.
  fold this w0 in H0.
  destruct (run_increments this N w0) as (Ri & Ti & _).
  destruct (run_disposals_quiet this N (run_ops this (repeat OpIncrement N) w0))
    as (Rd & Td & _); [rewrite Ri; lia |].
  assert (R1 : references w1 this = 1).
  { unfold w1. rewrite run_ops_app, Rd, Ri. lia. }
  assert (T1 : trace w1 = trace w0).
  { unfold w1. now rewrite run_ops_app, Td, Ti. }
  assert (R2 : references w2 this = 0).
  { unfold w2. rewrite references_dispose. lia. }
  assert (T2 : trace w2 = trace w0 ++ [Ev_releaseTexture this]).
  { unfold w2. now rewrite trace_dispose, R1, T1. }
  assert (H2 : handle_of w2 this = None).
  { unfold w2. now rewrite handle_dispose, R1. }
  destruct (run_disposals_quiet this k w2) as (R3 & T3 & H3); [lia |].
  fold w3 in R3, T3, H3.
  repeat split; try assumption.
  - unfold w2, w1. rewrite repeat_app, app_assoc, run_ops_app. reflexivity.
  - congruence.
  - lia.
Qed.

(** ** The loaded-textures cache *)

Lemma count_occ_splice1 x l i a :
  indexOf x l = Some i ->
  count_occ Nat.eq_dec (splice1 i l) a =
  if Nat.eq_dec a x then pred (count_occ Nat.eq_dec l a)
  else count_occ Nat.eq_dec l a.
Proof.
  revert i. induction l as [| y l IH]; intros i Hi; [discriminate |].
  cbn [indexOf] in Hi. destruct (Nat.eqb_spec y x) as [Eyx | Hyx].
  - injection Hi as <-. cbn [splice1 count_occ].
    destruct (Nat.eq_dec y a), (Nat.eq_dec a x); try congruence; reflexivity.
  - destruct (indexOf x l) as [j |] eqn:Hj; [| discriminate].
    injection Hi as <-. cbn [splice1 count_occ]. rewrite (IH j eq_refl).
    destruct (Nat.eq_dec y a), (Nat.eq_dec a x); try congruence; reflexivity.
Qed.

Lemma indexOf_None x l : indexOf x l = None <-> count_occ Nat.eq_dec l x = O.
Proof.
  induction l as [| y l IH]; cbn [indexOf count_occ]; [tauto |].
  destruct (Nat.eqb_spec y x) as [Eyx | Hyx].
  - destruct (Nat.eq_dec y x); [| congruence]. split; discriminate.
  - destruct (Nat.eq_dec y x); [congruence |].
    destruct (indexOf x l); [| tauto].
    split; [discriminate |]. intros H. apply IH in H. discriminate.
Qed.

(** Occurrences after the cache update of [_swapAndDie]: one occurrence of
    the source is taken out, and the target is put in when it has none. *)
Lemma count_occ_swap_cache s t l a :
  count_occ Nat.eq_dec (swap_cache s t l) a =
  let c := if Nat.eq_dec a s then pred (count_occ Nat.eq_dec l a)
           else count_occ Nat.eq_dec l a in
  if Nat.eq_dec a t then Nat.max 1 c else c.
Proof.
  unfold swap_cache.
  set (l1 := match indexOf s l with Some i => splice1 i l | None => l end).
  assert (H1 : forall b, count_occ Nat.eq_dec l1 b =
                         if Nat.eq_dec b s then pred (count_occ Nat.eq_dec l b)
                         else count_occ Nat.eq_dec l b).
  { intros b. unfold l1. destruct (indexOf s l) as [i |] eqn:Hi.
    - now apply count_occ_splice1.
    - apply indexOf_None in Hi. destruct (Nat.eq_dec b s) as [-> | _];
        [now rewrite Hi | reflexivity]. }
  cbv zeta. rewrite <- H1.
  destruct (indexOf t l1) as [j |] eqn:Hj.
  - destruct (Nat.eq_dec a t) as [Eat | _]; [| reflexivity].
    destruct (count_occ Nat.eq_dec l1 a) eqn:Hc; [| reflexivity].
    rewrite Eat in Hc. apply indexOf_None in Hc. congruence.
  - apply indexOf_None in Hj. rewrite count_occ_app. cbn [count_occ].
    destruct (Nat.eq_dec t a) as [Eta | Hta], (Nat.eq_dec a t) as [E | E];
      try congruence.
    + unfold addr in *. rewrite E in *. lia.
    + unfold addr in *. lia.
Qed.

Lemma swap_cache_fixed s t l :
  ~ In s l -> In t l -> swap_cache s t l = l.
Proof.
  intros Hs Ht. unfold swap_cache.
  assert (Es : indexOf s l = None).
  { apply indexOf_None. now apply count_occ_not_In. }
  rewrite Es. destruct (indexOf t l) eqn:Et; [reflexivity |].
  apply indexOf_None in Et. apply (count_occ_not_In Nat.eq_dec) in Et.
  contradiction.
Qed.

Lemma NoDup_swap_cache s t l : NoDup l -> NoDup (swap_cache s t l).
Proof.
  rewrite !(NoDup_count_occ Nat.eq_dec). intros H a.
  rewrite count_occ_swap_cache. cbv zeta. specialize (H a).
  destruct (Nat.eq_dec a s), (Nat.eq_dec a t); lia.
Qed.

Lemma swap_cache_source_gone s t l :
  NoDup l -> s <> t -> ~ In s (swap_cache s t l).
Proof.
  intros H Hne. apply (count_occ_not_In Nat.eq_dec).
  rewrite count_occ_swap_cache. cbv zeta.
  rewrite (NoDup_count_occ Nat.eq_dec) in H. specialize (H s).
  destruct (Nat.eq_dec s s), (Nat.eq_dec s t); try congruence; lia.
Qed.

Lemma swap_cache_target_once s t l :
  NoDup l -> s <> t -> count_occ Nat.eq_dec (swap_cache s t l) t = 1%nat.
Proof.
  intros H Hne. rewrite count_occ_swap_cache. cbv zeta.
  rewrite (NoDup_count_occ Nat.eq_dec) in H. specialize (H t).
  destruct (Nat.eq_dec t s), (Nat.eq_dec t t); try congruence; lia.
Qed.

Lemma swap_cache_In s t l a :
  In a (swap_cache s t l) -> a = t \/ In a l.
Proof.
  rewrite !(count_occ_In Nat.eq_dec), count_occ_swap_cache. cbv zeta.
  destruct (Nat.eq_dec a s), (Nat.eq_dec a t); auto; lia.
Qed.

(** ** Ownership transfer *)

Section SwapFrame.

Variables this target : addr.

Lemma cache_notify_usage w : cache (notify_usage this target w) = cache w.
Proof. unfold notify_usage. now destruct (_hardwareTexture _). Qed.

Lemma heap_notify_usage w : heap (notify_usage this target w) = heap w.
Proof. unfold notify_usage. now destruct (_hardwareTexture _). Qed.

Lemma cache_move_slot slot set_slot w :
  cache (move_slot slot set_slot this target w) = cache w.
Proof.
  unfold move_slot. destruct (slot (heap w this)); [| reflexivity].
  now destruct (slot (heap w target)).
Qed.

Lemma heap_move_slot slot set_slot w :
  heap (move_slot slot set_slot this target w) =
  match slot (heap w this) with
  | Some b => override (heap w) target (set_slot (Some b) (heap w target))
  | None => heap w
  end.
Proof.
  unfold move_slot. destruct (slot (heap w this)) eqn:E; [| reflexivity].
  destruct (slot (heap w target)); cbn; rewrite ?heap_emit, E; reflexivity.
Qed.

(** A step of the transfer writes to [target] only. *)
Lemma move_slot_other slot set_slot w a :
  a <> target -> heap (move_slot slot set_slot this target w) a = heap w a.
Proof.
  intros Ha. rewrite heap_move_slot.
  destruct (slot (heap w this)); [now apply override_other | reflexivity].
Qed.

Lemma move_slot_field {A} (field : InternalTexture -> A) slot set_slot w a :
  (forall v x, field (set_slot v x) = field x) ->
  field (heap (move_slot slot set_slot this target w) a) = field (heap w a).
Proof.
  intros Hf. rewrite heap_move_slot.
  destruct (slot (heap w this)); [| reflexivity].
  unfold override. destruct (Nat.eqb_spec a target) as [-> | _]; auto.
Qed.

Lemma cache_swapAndDie swapAll w :
  cache (_swapAndDie this target swapAll w) = swap_cache this target (cache w).
Proof.
  unfold _swapAndDie. cbv zeta. cbn [cache set_cache].
  rewrite !cache_move_slot.
  destruct swapAll; unfold assign_isRGBD, assign_handle;
    rewrite ?cache_upd, cache_notify_usage; reflexivity.
Qed.

Lemma swapAndDie_other swapAll w a :
  a <> target -> heap (_swapAndDie this target swapAll w) a = heap w a.
Proof.
  intros Ha. unfold _swapAndDie. cbv zeta. cbn [heap set_cache].
  rewrite !move_slot_other by exact Ha.
  destruct swapAll; unfold assign_isRGBD, assign_handle;
    rewrite ?heap_upd_other by exact Ha;
    now rewrite heap_notify_usage, heap_emit.
Qed.

(** A field that none of the assignments of [_swapAndDie] writes keeps its
    value in every object.  The [_isRGBD] assignment only counts when
    [swapAll] is set. *)
Lemma swapAndDie_field {A} (field : InternalTexture -> A) swapAll w a :
  (forall v x, field (set__hardwareTexture v x) = field x) ->
  (swapAll = true -> forall v x, field (set__isRGBD v x) = field x) ->
  (forall v x, field (set__lodTextureHigh v x) = field x) ->
  (forall v x, field (set__lodTextureMid v x) = field x) ->
  (forall v x, field (set__lodTextureLow v x) = field x) ->
  (forall v x, field (set__irradianceTexture v x) = field x) ->
  field (heap (_swapAndDie this target swapAll w) a) = field (heap w a).
Proof.
  intros Hh Hr H1 H2 H3 H4. unfold _swapAndDie. cbv zeta. cbn [heap set_cache].
  rewrite !move_slot_field by assumption.
  destruct swapAll; unfold assign_isRGBD, assign_handle;
    rewrite ?upd_preserves by auto;
    now rewrite heap_notify_usage, heap_emit.
Qed.

Lemma handle_swapAndDie_target swapAll w :
  handle_of (_swapAndDie this target swapAll w) target = handle_of w this.
Proof.
  unfold handle_of, _swapAndDie. cbv zeta. cbn [heap set_cache].
  rewrite !move_slot_field by reflexivity.
  destruct swapAll; unfold assign_isRGBD, assign_handle.
  - rewrite upd_preserves by reflexivity. rewrite heap_upd_same.
    cbn. now rewrite heap_notify_usage, heap_emit.
  - rewrite heap_upd_same. cbn. now rewrite heap_notify_usage, heap_emit.
Qed.

Lemma nextAddr_move_slot slot set_slot w :
  nextAddr (move_slot slot set_slot this target w) = nextAddr w.
Proof.
  unfold move_slot. destruct (slot (heap w this)); [| reflexivity].
  now destruct (slot (heap w target)).
Qed.

Lemma nextAddr_swapAndDie swapAll w :
  nextAddr (_swapAndDie this target swapAll w) = nextAddr w.
Proof.
  unfold _swapAndDie. cbv zeta. cbn [nextAddr set_cache].
  rewrite !nextAddr_move_slot.
  assert (H : nextAddr (notify_usage this target
                          (emit (Call_swapAndDie this target swapAll) w))
              = nextAddr w).
  { unfold notify_usage. now destruct (_hardwareTexture _). }
  destruct swapAll; exact H.
Qed.

End SwapFrame.

(** C3, as stated, fails on the code: [_swapAndDie] copies the handle into
    [target] and leaves the source's own [_hardwareTexture] as it was, so
    after the transfer two descriptors reference the same handle. *)
Lemma C3_counterexample :
  let w' := _swapAndDie 1%nat 0%nat true two_textures in
  handle_of two_textures 1%nat = Some 1%nat
  /\ handle_of w' 0%nat = Some 1%nat
  /\ handle_of w' 1%nat = Some 1%nat.
Proof. cbv zeta. repeat split; reflexivity. Qed.

(** C3 (amended): [source._swapAndDie(target)] makes [target] reference the
    source's handle and changes no other descriptor's [_hardwareTexture];
    the retired source keeps its reference.  Exclusive ownership holds
    among the descriptors of the loaded-textures cache: when no descriptor
    is listed twice and handles are exclusive among the source and the
    cached descriptors, then after the transfer handles are exclusive among
    the cached descriptors, and a source other than [target] is no longer
    cached. *)
Theorem C3_transfer_ownership s t swapAll w :
  NoDup (cache w) ->
  exclusive_handles w (s :: cache w) ->
  let w' := _swapAndDie s t swapAll w in
  handle_of w' t = handle_of w s
  /\ handle_of w' s = handle_of w s
  /\ (forall a, a <> t -> handle_of w' a = handle_of w a)
  /\ exclusive_handles w' (cache w')
  /\ (s <> t -> ~ In s (cache w')).
Proof.
  intros Hnd Hex w'.
  assert (Ht : handle_of w' t = handle_of w s)
    by apply handle_swapAndDie_target.
  assert (Ho : forall a, a <> t -> handle_of w' a = handle_of w a).
  { intros a Ha. unfold handle_of, w'. now rewrite swapAndDie_other. }
  assert (Hs : handle_of w' s = handle_of w s).
  { destruct (Nat.eq_dec s t) as [E | E]; [now rewrite E at 1 | now apply Ho]. }
  assert (Hgone : s <> t -> ~ In s (cache w')).
  { intros Hne. unfold w'. rewrite cache_swapAndDie.
    now apply swap_cache_source_gone. }
  repeat split; try assumption.
  (* every cached descriptor stands for one of [s :: cache w] with the
     handle it holds now: [target] for the source, the others for
     themselves *)
  assert (Hrep : forall a, In a (cache w') ->
            exists a', In a' (s :: cache w)
                       /\ handle_of w a' = handle_of w' a
                       /\ (a' = a \/ (a = t /\ a' = s))).
  { intros a Ha. destruct (Nat.eq_dec a t) as [E | E].
    - exists s. rewrite E, Ht. cbn [In]. auto.
    - exists a. rewrite (Ho a E). split; [| auto].
      unfold w' in Ha. rewrite cache_swapAndDie in Ha.
      apply swap_cache_In in Ha as [Ha | Ha]; [contradiction | now right]. }
  intros a b h Ha Hb Hah Hbh.
  destruct (Hrep a Ha) as (a' & Ia & Ea & Ca).
  destruct (Hrep b Hb) as (b' & Ib & Eb & Cb).
  assert (E' : a' = b').
  { apply (Hex a' b' h); congruence. }
  destruct Ca as [-> | [-> ->]], Cb as [-> | [-> ->]]; try congruence.
  - (* a is cached and equal to the source, b is the target *)
    subst a. destruct (Nat.eq_dec s t) as [E | E]; [exact E |].
    now apply Hgone in E.
  - subst b. destruct (Nat.eq_dec s t) as [E | E]; [now symmetry |].
    now apply Hgone in E.
Qed.

Lemma two_textures_exclusive :
  exclusive_handles two_textures (1%nat :: cache two_textures).
Proof.
  intros a b h Ha Hb. cbn in Ha, Hb.
  destruct Ha as [<- | [<- | [<- | []]]], Hb as [<- | [<- | [<- | []]]];
    cbv; congruence.
Qed.

Lemma C3_transfer_ownership_witness :
  let w' := _swapAndDie 1%nat 0%nat true two_textures in
  NoDup (cache two_textures)
  /\ handle_of w' 0%nat = handle_of two_textures 1%nat
  /\ exclusive_handles w' (cache w')
  /\ ~ In 1%nat (cache w').
Proof.
  assert (Hnd : NoDup (cache two_textures)).
  { cbn. repeat constructor; cbn; intuition discriminate. }
  destruct (C3_transfer_ownership 1%nat 0%nat true two_textures Hnd
              two_textures_exclusive) as (Ht & _ & _ & Hex & Hgone).
  cbv zeta. repeat split; try assumption.
  apply Hgone. discriminate.
Defined.

(** C5: with every descriptor listed at most once in the loaded-textures
    cache, two transfers into the same target (from the same source or from
    two sources) leave the cache with the target listed exactly once and
    without the retired sources; repeating the transfer from the same
    source leaves the cache as the first transfer made it. *)
Theorem C5_transfer_cache_idempotent s1 s2 t swapAll1 swapAll2 w :
  NoDup (cache w) -> s1 <> t -> s2 <> t ->
  let w1 := _swapAndDie s1 t swapAll1 w in
  let w2 := _swapAndDie s2 t swapAll2 w1 in
  count_occ Nat.eq_dec (cache w2) t = 1%nat
  /\ ~ In s1 (cache w2)
  /\ ~ In s2 (cache w2)
  /\ NoDup (cache w2)
  /\ (s1 = s2 -> cache w2 = cache w1).
Proof.
  intros Hnd H1 H2 w1 w2. unfold w2, w1. rewrite !cache_swapAndDie.
  pose proof (NoDup_swap_cache s1 t _ Hnd) as Hnd1.
  pose proof (swap_cache_source_gone s1 t _ Hnd H1) as Hg1.
  repeat split.
  - now apply swap_cache_target_once.
  - intros Hin. apply swap_cache_In in Hin as [E | Hin]; [| contradiction].
    now apply H1.
  - now apply swap_cache_source_gone.
  - now apply NoDup_swap_cache.
  - intros <-. apply swap_cache_fixed; [exact Hg1 |].
    apply (count_occ_In Nat.eq_dec).
    rewrite (swap_cache_target_once s1 t _ Hnd H1). lia.
Qed.

Lemma C5_transfer_cache_idempotent_witness :
  let w1 := _swapAndDie 1%nat 0%nat true two_textures in
  let w2 := _swapAndDie 1%nat 0%nat true w1 in
  NoDup (cache two_textures)
  /\ count_occ Nat.eq_dec (cache w2) 0%nat = 1%nat
  /\ ~ In 1%nat (cache w2).
Proof.
  assert (Hnd : NoDup (cache two_textures)).
  { cbn. repeat constructor; cbn; intuition discriminate. }
  assert (Hne : 1%nat <> 0%nat) by discriminate.
  destruct (C5_transfer_cache_idempotent 1%nat 1%nat 0%nat true true
              two_textures Hnd Hne Hne) as (Hc & Hs & _).
  cbv zeta. repeat split; assumption.
Defined.

(** ** Resize *)



(** [round_double] and [number_mul] against the IEEE 754 operations, on
    integers around the first powers of two past 2^53 (below, at and above
    the halfway points, both parities) and on the products used below. *)
Example round_double_is_ieee :
  let zs := [9007199254740991; 9007199254740992; 9007199254740993;
             9007199254740994; 9007199254740995; 9007199254740997;
             18014398509481985; 18014398509481986; 18014398509481987;
             18014398509481990; 9007199515875289; -9007199254740995;
             123456789012345678901234567890] in
  map (fun z => ieee_integer (ieee_of_Z z)) zs
  = map (fun z => Some (round_double z)) zs
  /\ ieee_product 94906267 94906267 3
     = Some (number_mul (number_mul 94906267 94906267) 3)
  /\ ieee_product 4 4 2 = Some (number_mul (number_mul 4 4) 2).
Proof. cbv zeta. repeat split; vm_compute; reflexivity. Qed.




(** ** Transfers recorded in the trace *)

Lemma transfers_emit e w :
  transfers (emit e w) = transfers w ++ (if is_transfer e then [e] else []).
Proof.
  unfold transfers. rewrite trace_emit, filter_app. cbn.
  now destruct (is_transfer e).
Qed.

Lemma transfers_upd a f w : transfers (upd a f w) = transfers w.
Proof. reflexivity. Qed.

Lemma transfers_notify_usage s t w : transfers (notify_usage s t w) = transfers w.
Proof.
  unfold notify_usage. destruct (_hardwareTexture _); [| reflexivity].
  rewrite transfers_emit. cbn. apply app_nil_r.
Qed.

Lemma transfers_move_slot slot set_slot s t w :
  transfers (move_slot slot set_slot s t w) = transfers w.
Proof.
  unfold move_slot. destruct (slot (heap w s)); [| reflexivity].
  rewrite transfers_upd. destruct (slot (heap w t)); [| reflexivity].
  rewrite transfers_emit. cbn. apply app_nil_r.
Qed.

Lemma transfers_swapAndDie s t swapAll w :
  transfers (_swapAndDie s t swapAll w)
  = transfers w ++ [Call_swapAndDie s t swapAll].
Proof.
  unfold _swapAndDie. cbv zeta.
  change (transfers (set_cache ?c ?x)) with (transfers x).
  rewrite !transfers_move_slot.
  destruct swapAll; unfold assign_isRGBD, assign_handle;
    rewrite ?transfers_upd, transfers_notify_usage, transfers_emit;
    reflexivity.
Qed.

(** ** Rebuild *)

Section RebuildFacts.

Variable engine : Engine.
Variable onRebuild : CallbackId -> addr -> World -> RebuildData.

Lemma rebuild_reset_this this w :
  heap (rebuild_reset this w) this = cleared (heap w this).
Proof. unfold rebuild_reset. cbv zeta. now store. Qed.

Lemma rebuild_reset_other this w a :
  a <> this -> heap (rebuild_reset this w) a = heap w a.
Proof.
  intros Ha. unfold rebuild_reset. cbv zeta.
  now rewrite !heap_upd_other by exact Ha.
Qed.

Lemma rebuild_reset_field {A} (field : InternalTexture -> A) this w a :
  rebuild_frame field ->
  field (heap (rebuild_reset this w) a) = field (heap w a).
Proof.
  intros (Hr & Hc & Hs & _). unfold rebuild_reset. cbv zeta.
  now rewrite !upd_preserves by auto.
Qed.

Lemma alloc_all_allocated ts w a :
  allocated w a ->
  heap (alloc_all ts w) a = heap w a
  /\ allocated (alloc_all ts w) a
  /\ trace (alloc_all ts w) = trace w.
Proof.
  revert w. induction ts as [| t ts IH]; intros w Ha; [now cbn |].
  cbn [alloc_all]. destruct (IH (snd (alloc t w))) as (H1 & H2 & H3).
  { unfold allocated in *. cbn. lia. }
  rewrite H1, H3. repeat split; [| exact H2].
  cbn. apply override_other. unfold allocated in Ha. lia.
Qed.

Lemma engine_create_spec call w :
  let p := fst (engine_create engine call w) in
  let w1 := snd (engine_create engine call w) in
  p = nextAddr w
  /\ nextAddr w1 = S (nextAddr w)
  /\ (forall a, allocated w a -> heap w1 a = heap w a)
  /\ trace w1 = trace w ++ [Ev_create call p].
Proof.
  unfold engine_create. cbn [alloc]. cbv zeta.
  destruct (engine_registers engine call w); cbn;
    repeat split; try reflexivity;
    intros a Ha; apply override_other; unfold allocated in Ha; lia.
Qed.

Lemma swap_then_ready_field {A} (field : InternalTexture -> A) p this r w a :
  rebuild_frame field ->
  field (heap (swap_then_ready p this r w) a) = field (heap w a).
Proof.
  intros (Hr & _ & _ & Hh & H1 & H2 & H3 & H4). unfold swap_then_ready.
  rewrite upd_preserves by auto.
  apply swapAndDie_field; auto. discriminate.
Qed.

Lemma transfers_swap_then_ready p this r w :
  transfers (swap_then_ready p this r w)
  = transfers w ++ [Call_swapAndDie p this false].
Proof. unfold swap_then_ready. now rewrite transfers_upd, transfers_swapAndDie. Qed.

Lemma updateDynamicTexture_field {A} (field : InternalTexture -> A) t i w a :
  rebuild_frame field ->
  field (heap (engine_updateDynamicTexture engine t i w) a) = field (heap w a).
Proof.
  intros (Hr & _). unfold engine_updateDynamicTexture.
  destruct (engine_dynamicReady engine _); [| reflexivity].
  now rewrite upd_preserves by auto.
Qed.

Lemma transfers_updateDynamicTexture t i w :
  transfers (engine_updateDynamicTexture engine t i w) = transfers w.
Proof.
  unfold engine_updateDynamicTexture.
  destruct (engine_dynamicReady engine _);
    rewrite ?transfers_upd, transfers_emit; cbn; apply app_nil_r.
Qed.

End RebuildFacts.

(** Name the descriptor and the world a creation entry point returns. *)
Ltac create_case p w1 Hp Hheap Htr :=
  match goal with
  | |- context [engine_create ?e ?c ?w] =>
      let H := fresh "H" in
      pose proof (engine_create_spec e c w) as H; cbv zeta in H;
      destruct (engine_create e c w) as [p w1]; cbn [fst snd] in H;
      destruct H as (Hp & _ & Hheap & Htr)
  end.

Section RebuildFrame.

Variable engine : Engine.
Variable onRebuild : CallbackId -> addr -> World -> RebuildData.

Lemma rebuild_switch_field {A} (field : InternalTexture -> A) this w a :
  rebuild_frame field -> allocated w a ->
  field (heap (world_of (rebuild_switch engine this w)) a) = field (heap w a).
Proof.
  intros Hf Ha. unfold rebuild_switch. cbv zeta.
  destruct (source w this); try reflexivity;
    create_case p w1 Hp Hheap Htr; cbn [world_of];
    rewrite ?swap_then_ready_field by exact Hf;
    try (now rewrite Hheap).
  - (* Dynamic *)
    rewrite updateDynamicTexture_field by exact Hf.
    destruct Hf as (_ & _ & _ & Hh & H1 & H2 & H3 & H4).
    rewrite swapAndDie_field; auto; [now rewrite Hheap | discriminate].
  - (* CubePrefiltered: the proxy is a new object *)
    rewrite heap_upd_other; [now rewrite Hheap |].
    unfold allocated in Ha. lia.
Qed.

Lemma rebuild_custom_field {A} (field : InternalTexture -> A) cb this w a :
  rebuild_frame field -> allocated w a ->
  field (heap (world_of (rebuild_custom onRebuild cb this w)) a)
  = field (heap w a).
Proof.
  intros Hf Ha. unfold rebuild_custom. cbv zeta.
  destruct (alloc_all_allocated (data_created (onRebuild cb this w)) w a Ha)
    as (Hheap & _ & _).
  destruct (data_isAsync _), (data_proxy _); cbn [world_of];
    rewrite ?swap_then_ready_field by exact Hf; now rewrite Hheap.
Qed.

(** [_rebuild] leaves a field of the frame as it was in every descriptor
    that existed when it was called. *)
Lemma rebuild_field {A} (field : InternalTexture -> A) this w a :
  rebuild_frame field -> allocated w a ->
  field (heap (world_of (_rebuild engine onRebuild this w)) a)
  = field (heap w a).
Proof.
  intros Hf Ha. unfold _rebuild, rebuild_recreate.
  assert (Ha' : allocated (rebuild_reset this w) a) by exact Ha.
  destruct (onRebuildCallback _).
  - rewrite rebuild_custom_field by assumption.
    now apply rebuild_reset_field.
  - rewrite rebuild_switch_field by assumption.
    now apply rebuild_reset_field.
Qed.

(** So does a completion handler, in every descriptor. *)
Lemma resume_field {A} (field : InternalTexture -> A) k arg w a :
  rebuild_frame field ->
  field (heap (world_of (resume k arg w)) a) = field (heap w a).
Proof.
  intros Hf. destruct k, arg; cbn [resume world_of];
    rewrite ?swap_then_ready_field by exact Hf; try reflexivity.
  - destruct Hf as (Hr & _ & _ & Hh & H1 & H2 & H3 & H4).
    rewrite upd_preserves by auto. apply swapAndDie_field; auto. discriminate.
  - destruct Hf as (Hr & _). now rewrite upd_preserves by auto.
Qed.

Lemma transfers_create p w1 w call :
  trace w1 = trace w ++ [Ev_create call p] -> transfers w1 = transfers w.
Proof.
  intros H. unfold transfers. rewrite H, filter_app. cbn. apply app_nil_r.
Qed.

Lemma rebuild_switch_transfers this w :
  exists new,
    transfers (world_of (rebuild_switch engine this w)) = transfers w ++ new
    /\ Forall (unflagged_into this) new.
Proof.
  unfold rebuild_switch. cbv zeta.
  destruct (source w this);
    try (exists []; cbn [world_of]; rewrite app_nil_r; now split);
    create_case p w1 Hp Hheap Htr; cbn [world_of];
    apply transfers_create in Htr.
  - exists []. rewrite app_nil_r. now split.
  - exists [Call_swapAndDie p this false].
    rewrite transfers_swap_then_ready, Htr. split; [reflexivity |].
    repeat constructor. now exists p.
  - exists [Call_swapAndDie p this false].
    rewrite transfers_updateDynamicTexture, transfers_swapAndDie, Htr.
    split; [reflexivity |]. repeat constructor. now exists p.
  - exists []. rewrite app_nil_r. now split.
  - exists [Call_swapAndDie p this false].
    rewrite transfers_swap_then_ready, Htr. split; [reflexivity |].
    repeat constructor. now exists p.
  - exists []. rewrite transfers_upd, app_nil_r. now split.
  - exists [Call_swapAndDie p this false].
    rewrite transfers_swap_then_ready, Htr. split; [reflexivity |].
    repeat constructor. now exists p.
  - exists [Call_swapAndDie p this false].
    rewrite transfers_swap_then_ready, Htr. split; [reflexivity |].
    repeat constructor. now exists p.
Qed.

End RebuildFrame.

(** Discharge [rebuild_frame] for a concrete field. *)
Ltac frame := unfold rebuild_frame; repeat split; reflexivity.

Section RebuildClaims.

Variable engine : Engine.
Variable onRebuild : CallbackId -> addr -> World -> RebuildData.

Lemma trace_rebuild_reset this w : trace (rebuild_reset this w) = trace w.
Proof. reflexivity. Qed.

Lemma rebuild_custom_transfers cb this w :
  exists new,
    transfers (world_of (rebuild_custom onRebuild cb this w))
    = transfers w ++ new
    /\ Forall (unflagged_into this) new.
Proof.
  unfold rebuild_custom. cbv zeta.
  set (data := onRebuild cb this w).
  assert (Hal : forall ts w0, transfers (alloc_all ts w0) = transfers w0).
  { induction ts as [| t ts IH]; intros w0; [reflexivity |].
    cbn [alloc_all]. now rewrite IH. }
  destruct (data_isAsync data), (data_proxy data); cbn [world_of];
    try (exists []; rewrite Hal, app_nil_r; now split).
  exists [Call_swapAndDie p this false].
  rewrite transfers_swap_then_ready, Hal. split; [reflexivity |].
  repeat constructor. now exists p.
Qed.

Lemma rebuild_transfers this w :
  exists new,
    transfers (world_of (_rebuild engine onRebuild this w))
    = transfers w ++ new
    /\ Forall (unflagged_into this) new.
Proof.
  unfold _rebuild, rebuild_recreate.
  change (transfers w) with (transfers (rebuild_reset this w)).
  destruct (onRebuildCallback _);
    [apply rebuild_custom_transfers | apply rebuild_switch_transfers].
Qed.

Lemma resume_transfers k arg w :
  exists new,
    transfers (world_of (resume k arg w)) = transfers w ++ new
    /\ Forall (unflagged_into (pending_this k)) new.
Proof.
  destruct k, arg as [p |]; cbn [resume world_of pending_this];
    rewrite ?transfers_upd, ?transfers_swap_then_ready, ?transfers_swapAndDie;
    try (exists []; rewrite app_nil_r; now split);
    eexists; (split; [reflexivity |]); repeat constructor; eexists; reflexivity.
Qed.

Lemma rebuild_pending_this this w k :
  pending_of (_rebuild engine onRebuild this w) = Some k ->
  pending_this k = this.
Proof.
  unfold _rebuild, rebuild_recreate. destruct (onRebuildCallback _).
  - unfold rebuild_custom. cbv zeta.
    destruct (data_isAsync _), (data_proxy _); cbn; intros H;
      try discriminate; now injection H as <-.
  - unfold rebuild_switch. cbv zeta.
    destruct (source _ this); try (cbn; discriminate);
      destruct (engine_create _ _ _); cbn; intros H;
      try discriminate; now injection H as <-.
Qed.

End RebuildClaims.

Section RebuildTheorems.

Variable engine : Engine.
Variable onRebuild : CallbackId -> addr -> World -> RebuildData.

(** C8: [_rebuild()] is its kind-specific part (the registered callback
    when there is one, the switch on the source otherwise) run on the
    world in which the ready flag is false and the five cached
    sampler-state values are null; reaching that world takes no call on
    the engine, no transfer and no allocation. *)
Theorem C8_rebuild_clears_first this w :
  let w0 := rebuild_reset this w in
  _rebuild engine onRebuild this w
  = match onRebuildCallback (heap w this) with
    | Some cb => rebuild_custom onRebuild cb this w0
    | None => rebuild_switch engine this w0
    end
  /\ isReady (heap w0 this) = false
  /\ _cachedCoordinatesMode (heap w0 this) = None
  /\ _cachedWrapU (sampler (heap w0 this)) = None
  /\ _cachedWrapV (sampler (heap w0 this)) = None
  /\ _cachedWrapR (sampler (heap w0 this)) = None
  /\ _cachedAnisotropicFilteringLevel (sampler (heap w0 this)) = None
  /\ trace w0 = trace w
  /\ nextAddr w0 = nextAddr w.
Proof.
  cbv zeta. split.
  - unfold _rebuild, rebuild_recreate.
    now rewrite (rebuild_reset_field onRebuildCallback) by frame.
  - rewrite rebuild_reset_this. repeat split; reflexivity.
Qed.

(** C4 (amended): for a descriptor of source Temp, CubeRawRGBD, Unknown or
    any other source without a case in the switch, and with no custom
    rebuild callback, [_rebuild()] makes no call on the engine, performs no
    transfer and leaves no handler pending; the one thing it does is
    clear the ready flag and the five cached sampler-state values of the
    descriptor, every other field and every other descriptor being left
    as they were. *)
Theorem C4_rebuild_inert this w :
  rebuild_inert (source w this) = true ->
  onRebuildCallback (heap w this) = None ->
  let o := _rebuild engine onRebuild this w in
  o = Returned (rebuild_reset this w) None
  /\ trace (world_of o) = trace w
  /\ cache (world_of o) = cache w
  /\ nextAddr (world_of o) = nextAddr w
  /\ heap (world_of o) this = cleared (heap w this)
  /\ isReady (heap (world_of o) this) = false
  /\ (forall a, a <> this -> heap (world_of o) a = heap w a).
Proof.
  intros Hs Hcb o.
  assert (Ho : o = Returned (rebuild_reset this w) None).
  { unfold o, _rebuild, rebuild_recreate.
    rewrite (rebuild_reset_field onRebuildCallback) by frame. rewrite Hcb.
    unfold rebuild_switch, source in *. cbv zeta.
    rewrite (rebuild_reset_field _source) by frame.
    destruct (_source (heap w this)); (reflexivity || discriminate Hs). }
  rewrite Ho. cbn [world_of]. repeat split; try reflexivity.
  - apply rebuild_reset_this.
  - now rewrite rebuild_reset_this.
  - apply rebuild_reset_other.
Qed.

(** C6: [_rebuild()] leaves the unique id of the descriptor as it was, for
    every source and with or without a custom callback, and so does the
    completion handler of an asynchronous recreation, whenever it runs. *)
Theorem C6_rebuild_preserves_uniqueId this w :
  allocated w this ->
  let o := _rebuild engine onRebuild this w in
  uniqueId (world_of o) this = uniqueId w this
  /\ (forall k arg,
        uniqueId (world_of (resume k arg (world_of o))) this = uniqueId w this)
  /\ (forall k arg w1 a,
        uniqueId (world_of (resume k arg w1)) a = uniqueId w1 a)
  /\ (forall s t swapAll w1 a,
        uniqueId (_swapAndDie s t swapAll w1) a = uniqueId w1 a).
Proof.
  intros Ha o. unfold uniqueId.
  assert (Ho : _uniqueId (heap (world_of o) this) = _uniqueId (heap w this)).
  { apply rebuild_field; [frame | exact Ha]. }
  repeat split.
  - exact Ho.
  - intros k arg. rewrite resume_field by frame. exact Ho.
  - intros k arg w1 a. apply resume_field. frame.
  - intros s t swapAll w1 a. apply swapAndDie_field; reflexivity.
Qed.

(** C9: every transfer that [_rebuild()] or its completion handler
    performs is a [_swapAndDie] into the descriptor with [swapAll] false,
    on the built-in paths and on the custom callback path alike, and the
    descriptor's [_isRGBD] flag is the same after the rebuild, and after
    its completion, as before. *)
Theorem C9_rebuild_keeps_isRGBD this w :
  allocated w this ->
  let o := _rebuild engine onRebuild this w in
  (exists new,
      transfers (world_of o) = transfers w ++ new
      /\ Forall (unflagged_into this) new)
  /\ _isRGBD (heap (world_of o) this) = _isRGBD (heap w this)
  /\ (forall k arg,
        pending_of o = Some k ->
        let w' := world_of (resume k arg (world_of o)) in
        (exists new,
            transfers w' = transfers (world_of o) ++ new
            /\ Forall (unflagged_into this) new)
        /\ _isRGBD (heap w' this) = _isRGBD (heap w this)).
Proof.
  intros Ha o.
  assert (Ho : _isRGBD (heap (world_of o) this) = _isRGBD (heap w this)).
  { apply rebuild_field; [frame | exact Ha]. }
  split; [apply rebuild_transfers |]. split; [exact Ho |].
  intros k arg Hk w'. split.
  - rewrite <- (rebuild_pending_this engine onRebuild this w k Hk).
    apply resume_transfers.
  - unfold w'. rewrite resume_field by frame. exact Ho.
Qed.

(** C10: [_swapAndDie] writes no [_sphericalPolynomial]; in a
    CubePrefiltered rebuild the value of the descriptor is copied onto the
    proxy as soon as the creation call has returned, while the handler is
    still pending and before any transfer; and the descriptor's own value
    is the same when the rebuild returns, and after the handler has run,
    as before the rebuild. *)
Theorem C10_spherical_polynomial this w :
  allocated w this ->
  source w this = CubePrefiltered ->
  onRebuildCallback (heap w this) = None ->
  let o := _rebuild engine onRebuild this w in
  let proxy := nextAddr w in
  let t := heap w this in
  (forall s tgt swapAll w1 a,
      _sphericalPolynomial (heap (_swapAndDie s tgt swapAll w1) a)
      = _sphericalPolynomial (heap w1 a))
  /\ pending_of o = Some (OnPrefilteredLoad this)
  /\ trace (world_of o)
     = trace w ++ [Ev_create
                     (createPrefilteredCubeTexture (url t)
                        (_lodGenerationScale t) (_lodGenerationOffset t)
                        (format t) (_extension t)) proxy]
  /\ _sphericalPolynomial (heap (world_of o) proxy)
     = _sphericalPolynomial t
  /\ _sphericalPolynomial (heap (world_of o) this) = _sphericalPolynomial t
  /\ (forall arg,
        _sphericalPolynomial
          (heap (world_of (resume (OnPrefilteredLoad this) arg (world_of o)))
                this)
        = _sphericalPolynomial t).
Proof.
  intros Ha Hs Hcb o proxy t.
  assert (Hthis : _sphericalPolynomial (heap (world_of o) this)
                  = _sphericalPolynomial t).
  { apply rebuild_field; [frame | exact Ha]. }
  split; [intros; apply swapAndDie_field; reflexivity |].
  assert (Ho : o = rebuild_switch engine this (rebuild_reset this w)).
  { unfold o, _rebuild, rebuild_recreate.
    now rewrite (rebuild_reset_field onRebuildCallback), Hcb by frame. }
  assert (Hflds : rebuild_switch engine this (rebuild_reset this w)
          = let '(p, w1) :=
              engine_create engine
                (createPrefilteredCubeTexture (url t) (_lodGenerationScale t)
                   (_lodGenerationOffset t) (format t) (_extension t))
                (rebuild_reset this w) in
            Returned
              (upd p (set__sphericalPolynomial
                        (_sphericalPolynomial (heap w1 this))) w1)
              (Some (OnPrefilteredLoad this))).
  { unfold rebuild_switch, source in *. cbv zeta.
    rewrite (rebuild_reset_field _source), Hs by frame.
    now rewrite rebuild_reset_this. }
  rewrite Hflds in Ho. clear Hflds. revert Ho.
  create_case p w1 Hp Hheap Htr. intros Ho.
  assert (Hsp : _sphericalPolynomial (heap w1 this) = _sphericalPolynomial t).
  { rewrite Hheap by exact Ha.
    now rewrite (rebuild_reset_field _sphericalPolynomial) by frame. }
  change (nextAddr (rebuild_reset this w)) with proxy in Hp. subst p.
  rewrite Ho in *. cbn [world_of pending_of] in *.
  repeat split.
  - exact Htr.
  - now rewrite heap_upd_same.
  - exact Hthis.
  - intros arg. rewrite resume_field by frame. exact Hthis.
Qed.

End RebuildTheorems.

(** C4, as stated, fails on the code: the assignments that open
    [_rebuild()] run before the source is looked at, so a ready [Temp]
    descriptor comes out of [_rebuild()] not ready. *)
Lemma C4_counterexample :
  let this := fst ready_temp in
  let w := snd ready_temp in
  source w this = Temp
  /\ onRebuildCallback (heap w this) = None
  /\ isReady (heap w this) = true
  /\ isReady (heap (world_of (_rebuild plain_engine no_callbacks this w)) this)
     = false.
Proof. cbv zeta. repeat split; reflexivity. Qed.

Lemma C4_rebuild_inert_witness :
  let this := fst ready_temp in
  let w := snd ready_temp in
  let o := _rebuild plain_engine no_callbacks this w in
  rebuild_inert (source w this) = true
  /\ onRebuildCallback (heap w this) = None
  /\ trace (world_of o) = trace w
  /\ pending_of o = None
  /\ heap (world_of o) this = cleared (heap w this).
Proof.
  cbv zeta.
  destruct (C4_rebuild_inert plain_engine no_callbacks (fst ready_temp)
              (snd ready_temp) eq_refl eq_refl)
    as (Ho & Htr & _ & _ & Hheap & _).
  split; [reflexivity |]. split; [reflexivity |]. split; [exact Htr |].
  split; [now rewrite Ho | exact Hheap].
Defined.

Lemma one_texture_allocated src :
  allocated (snd (one_texture src)) (fst (one_texture src)).
Proof. unfold allocated. change (0 < 1)%nat. lia. Qed.

Lemma C6_rebuild_preserves_uniqueId_witness :
  let this := fst (one_texture Url) in
  let w := snd (one_texture Url) in
  let o := _rebuild plain_engine no_callbacks this w in
  allocated w this
  /\ pending_of o = Some (OnUrlLoad this)
  /\ uniqueId (world_of o) this = uniqueId w this
  /\ uniqueId (world_of (resume (OnUrlLoad this) (Some 1%nat) (world_of o))) this
     = uniqueId w this.
Proof.
  cbv zeta.
  destruct (C6_rebuild_preserves_uniqueId plain_engine no_callbacks
              (fst (one_texture Url)) (snd (one_texture Url))
              (one_texture_allocated Url))
    as (Ho & Hk & _).
  split; [apply one_texture_allocated |]. split; [reflexivity |].
  split; [exact Ho | apply Hk].
Defined.

Lemma C9_rebuild_keeps_isRGBD_witness :
  let this := fst (one_texture Raw) in
  let w := snd (one_texture Raw) in
  let o := _rebuild plain_engine no_callbacks this w in
  allocated w this
  /\ transfers (world_of o) = [Call_swapAndDie 1%nat this false]
  /\ _isRGBD (heap (world_of o) this) = _isRGBD (heap w this).
Proof.
  cbv zeta.
  destruct (C9_rebuild_keeps_isRGBD plain_engine no_callbacks
              (fst (one_texture Raw)) (snd (one_texture Raw))
              (one_texture_allocated Raw))
    as (_ & Ho & _).
  split; [apply one_texture_allocated |]. split; [reflexivity | exact Ho].
Defined.

Lemma C10_spherical_polynomial_witness :
  let this := fst (one_texture CubePrefiltered) in
  let w := upd this (set__sphericalPolynomial (Some 7%nat))
             (snd (one_texture CubePrefiltered)) in
  let o := _rebuild plain_engine no_callbacks this w in
  allocated w this
  /\ source w this = CubePrefiltered
  /\ onRebuildCallback (heap w this) = None
  /\ _sphericalPolynomial (heap (world_of o) (nextAddr w)) = Some 7%nat
  /\ _sphericalPolynomial
       (heap (world_of (resume (OnPrefilteredLoad this) (Some (nextAddr w))
                          (world_of o))) this)
     = Some 7%nat.
Proof.
  cbv zeta.
  destruct (C10_spherical_polynomial plain_engine no_callbacks
              (fst (one_texture CubePrefiltered))
              (upd (fst (one_texture CubePrefiltered))
                 (set__sphericalPolynomial (Some 7%nat))
                 (snd (one_texture CubePrefiltered)))
              (one_texture_allocated CubePrefiltered) eq_refl eq_refl)
    as (_ & _ & _ & Hproxy & _ & Hdone).
  split; [apply one_texture_allocated |]. split; [reflexivity |].
  split; [reflexivity |]. split; [exact Hproxy | apply Hdone].
Defined.

(** ** Scenarios *)

(** A [Raw] descriptor disposed once from count 1: one release, no handle
    left. *)
Example scenario_dispose_once :
  let this := fst (one_texture Raw) in
  let w := dispose this (snd (one_texture Raw)) in
  handle_of (snd (one_texture Raw)) this = Some 0%nat
  /\ trace w = [Ev_createHardwareTexture 0%nat; Ev_releaseTexture this]
  /\ handle_of w this = None.
Proof. cbv zeta. repeat split; reflexivity. Qed.

(** Count raised from 1 to 3, then three disposals: the release comes
    with the third. *)
Example scenario_three_owners :
  let this := fst (one_texture Raw) in
  let w2 := run_ops this [OpIncrement; OpIncrement; OpDispose; OpDispose]
              (snd (one_texture Raw)) in
  references w2 this = 1
  /\ releases w2 this = 0%nat
  /\ releases (dispose this w2) this = 1%nat.
Proof. cbv zeta. repeat split; reflexivity. Qed.

(** A [Url] rebuild: not ready until the load handler runs; ready, and
    holding the handle of the loaded texture, afterwards; the cache lists
    the descriptor and no longer the loaded proxy. *)
Example scenario_url_rebuild :
  let this := fst (one_texture Url) in
  let w := upd this (set_isReady true) (snd (one_texture Url)) in
  let o := _rebuild loading_engine no_callbacks this w in
  let w' := world_of (resume (OnUrlLoad this) (Some 1%nat) (world_of o)) in
  pending_of o = Some (OnUrlLoad this)
  /\ isReady (heap (world_of o) this) = false
  /\ cache (world_of o) = [1%nat]
  /\ isReady (heap w' this) = true
  /\ handle_of w' this = Some 42%nat
  /\ cache w' = [this].
Proof. cbv zeta. repeat split; reflexivity. Qed.

(** A transfer moves the source's high LOD texture into the target and
    disposes the one the target held. *)
Example scenario_transfer_lod :
  let w' := _swapAndDie 1%nat 0%nat true two_textures_lod in
  _lodTextureHigh (heap w' 0%nat) = Some 5%nat
  /\ In (Ev_BaseTexture_dispose 9%nat) (trace w')
  /\ cache w' = [0%nat].
Proof.
  cbv zeta. repeat split; try reflexivity.
  vm_compute. do 4 right. left. reflexivity.
Qed.

(** A callback that answers with a null proxy makes [_rebuild()] throw,
    after the flags have been cleared. *)
Example scenario_null_proxy :
  let this := fst (one_texture Raw) in
  let w := upd this (set_isReady true) (snd (one_texture Raw)) in
  let w := upd this (set_onRebuildCallback (Some 0%nat)) w in
  match _rebuild plain_engine no_callbacks this w with
  | Threw w' => isReady (heap w' this) = false
  | Returned _ _ => False
  end.
Proof. vm_compute. reflexivity. Qed.

(** ** Construction *)

Lemma new_InternalTexture_spec src delay w :
  let this := fst (new_InternalTexture src delay w) in
  let w' := snd (new_InternalTexture src delay w) in
  this = nextAddr w
  /\ nextAddr w' = S (nextAddr w)
  /\ Counter w' = Counter w + 1
  /\ heap w' this
     = set__hardwareTexture (if delay then None else Some (nextHandle w))
         (InternalTexture_init src (Counter w))
  /\ trace w'
     = trace w ++ (if delay then [] else [Ev_createHardwareTexture (nextHandle w)])
  /\ cache w' = cache w
  /\ (forall a, allocated w a -> heap w' a = heap w a).
Proof.
  unfold new_InternalTexture, allocated. cbn [alloc]. cbv zeta.
  destruct delay; cbn [negb fst snd].
  - repeat split; try reflexivity.
    + cbn. now rewrite override_same.
    + cbn. now rewrite app_nil_r.
    + intros a Ha. cbn. apply override_other. lia.
  - repeat split; try reflexivity.
    + rewrite heap_upd_same, heap_emit. cbn. now rewrite override_same.
    + intros a Ha. rewrite heap_upd_other, heap_emit by lia.
      cbn. apply override_other. lia.
Qed.

Lemma new_many_spec reqs : forall w,
  let l := fst (new_many reqs w) in
  let w' := snd (new_many reqs w) in
  l = seq (nextAddr w) (List.length reqs)
  /\ nextAddr w' = (nextAddr w + List.length reqs)%nat
  /\ Counter w' = Counter w + Z.of_nat (List.length reqs)
  /\ map (uniqueId w') l
     = map (fun i => Counter w + Z.of_nat i) (seq 0 (List.length reqs))
  /\ cache w' = cache w
  /\ (forall a, allocated w a -> heap w' a = heap w a).
Proof.
  induction reqs as [| [src delay] rest IH]; intros w.
  - cbn. repeat split; (lia || auto).
  - cbn [new_many List.length].
    pose proof (new_InternalTexture_spec src delay w) as H1. cbv zeta in H1.
    destruct (new_InternalTexture src delay w) as [a w1]. cbn [fst snd] in H1.
    destruct H1 as (Ha & Hn1 & Hc1 & Hh1 & _ & Hk1 & Hf1).
    specialize (IH w1). cbv zeta in IH.
    destruct (new_many rest w1) as [l w2]. cbn [fst snd] in *.
    destruct IH as (Hl & Hn2 & Hc2 & Hid & Hk2 & Hf2).
    assert (Haw1 : allocated w1 a) by (unfold allocated; lia).
    repeat split.
    + cbn [seq]. now rewrite Ha, Hl, Hn1.
    + lia.
    + lia.
    + cbn [seq map]. f_equal.
      * unfold uniqueId. rewrite (Hf2 a Haw1), Hh1. cbn. lia.
      * rewrite Hid, <- seq_shift, map_map. apply map_ext. intros i. lia.
    + congruence.
    + intros b Hb. rewrite Hf2 by (unfold allocated in *; lia). now apply Hf1.
Qed.

Lemma NoDup_map_injective {A B} (f : A -> B) l :
  (forall x y, f x = f y -> x = y) -> NoDup l -> NoDup (map f l).
Proof.
  intros Hinj. induction 1 as [| x l Hx Hl IH]; cbn; constructor; auto.
  intros Hin. apply in_map_iff in Hin as (y & Hy & Hin).
  apply Hinj in Hy. now subst y.
Qed.

(** X1: descriptors constructed one after another get consecutive
    identifiers taken from [_Counter], so no two of them share one. *)
Theorem X1_constructed_ids_distinct reqs w :
  let l := fst (new_many reqs w) in
  let w' := snd (new_many reqs w) in
  map (uniqueId w') l
  = map (fun i => Counter w + Z.of_nat i) (seq 0 (List.length reqs))
  /\ NoDup (map (uniqueId w') l)
  /\ Counter w' = Counter w + Z.of_nat (List.length reqs).
Proof.
  cbv zeta. destruct (new_many_spec reqs w) as (_ & _ & Hc & Hid & _).
  repeat split; [exact Hid | | exact Hc].
  rewrite Hid. apply NoDup_map_injective; [| apply seq_NoDup].
  intros i j Hij. lia.
Qed.

(** X2: the constructor makes a new object with count 1 and not ready;
    with [delayAllocation] it holds no handle and the engine is not
    called, otherwise it holds the handle the engine created.  The
    descriptor is not put in the loaded-textures cache and the existing
    descriptors are left as they were. *)
Theorem X2_constructor src delay w :
  let this := fst (new_InternalTexture src delay w) in
  let w' := snd (new_InternalTexture src delay w) in
  ~ allocated w this
  /\ allocated w' this
  /\ references w' this = 1
  /\ isReady (heap w' this) = false
  /\ source w' this = src
  /\ handle_of w' this = (if delay then None else Some (nextHandle w))
  /\ trace w'
     = trace w ++ (if delay then [] else [Ev_createHardwareTexture (nextHandle w)])
  /\ cache w' = cache w
  /\ (forall a, allocated w a -> heap w' a = heap w a).
Proof.
  cbv zeta.
  destruct (new_InternalTexture_spec src delay w)
    as (Ha & Hn & _ & Hh & Ht & Hk & Hf).
  unfold allocated, references, source, handle_of. rewrite Hh, Ha, Hn.
  repeat split; try assumption; try reflexivity; lia.
Qed.

(** ** More on reference counting *)

Lemma dispose_field {A} (field : InternalTexture -> A) this w a :
  dispose_frame field ->
  field (heap (dispose this w) a) = field (heap w a).
Proof.
  intros (Hr & Hl & He & Hh). rewrite dispose_unfold. cbv zeta.
  destruct (references w this =? 1);
    rewrite ?(upd_preserves field), ?heap_emit, ?(upd_preserves field) by auto;
    reflexivity.
Qed.

Lemma dispose_other this w a :
  a <> this -> heap (dispose this w) a = heap w a.
Proof.
  intros Ha. rewrite dispose_unfold. cbv zeta.
  destruct (references w this =? 1);
    rewrite ?heap_upd_other, ?heap_emit, ?heap_upd_other by exact Ha;
    reflexivity.
Qed.

Lemma cache_dispose this w : cache (dispose this w) = cache w.
Proof.
  rewrite dispose_unfold. cbv zeta. now destruct (references w this =? 1).
Qed.

(** X3: [dispose()] lowers the count by one and empties both observables
    whatever the count is.  When the count does not reach 0 it does
    nothing else: no call is made, and every other field of the
    descriptor (the handle included), every other descriptor and the
    cache are as they were.  When the count reaches 0, the class calls
    [engine._releaseTexture(this)], once, and then nulls the handle. *)
Theorem X3_dispose_frame this w :
  let w' := dispose this w in
  references w' this = references w this - 1
  /\ onLoadedObservable (heap w' this) = []
  /\ onErrorObservable (heap w' this) = []
  /\ (references w this <> 1 ->
      trace w' = trace w
      /\ cache w' = cache w
      /\ (forall a, a <> this -> heap w' a = heap w a)
      /\ (forall A (field : InternalTexture -> A),
            count_frame field -> field (heap w' this) = field (heap w this)))
  /\ (references w this = 1 ->
      trace w' = trace w ++ [Ev_releaseTexture this]
      /\ handle_of w' this = None).
Proof.
  cbv zeta. split; [apply references_dispose |].
  split; [| split; [| split]].
  - rewrite dispose_unfold. cbv zeta.
    destruct (references w this =? 1); now store.
  - rewrite dispose_unfold. cbv zeta.
    destruct (references w this =? 1); now store.
  - intros Hne. rewrite trace_dispose, dispose_unfold. cbv zeta.
    destruct (Z.eqb_spec (references w this) 1) as [E | _]; [contradiction |].
    split; [reflexivity |]. split; [reflexivity |]. split.
    + intros a Ha. now rewrite !heap_upd_other by exact Ha.
    + intros A field (Fr & Fl & Fe). rewrite !heap_upd_same.
      now rewrite Fe, Fl, Fr.
  - intros H1. rewrite trace_dispose, handle_dispose, H1. now split.
Qed.

(** X4: after any sequence of [incrementReferences()] and [dispose()]
    calls the count is the initial count plus the increments minus the
    disposals, in whatever order they came; other descriptors are not
    touched. *)
Theorem X4_count_is_net_change this ops w :
  references (run_ops this ops w) this = references w this + net_change ops
  /\ (forall a, a <> this -> heap (run_ops this ops w) a = heap w a).
Proof.
  revert w. induction ops as [| op ops IH]; intros w.
  - cbn. split; [lia | reflexivity].
  - cbn [run_ops]. destruct (IH (apply_op this op w)) as (Hr & Hf).
    rewrite Hr, references_apply_op. split.
    + destruct op; cbn [net_change]; lia.
    + intros a Ha. rewrite (Hf a Ha). destruct op; cbn [apply_op].
      * unfold incrementReferences. now apply heap_upd_other.
      * now apply dispose_other.
Qed.

Lemma handle_apply_op this op w :
  handle_of (apply_op this op w) this =
  if (references w this =? 1) && (references (apply_op this op w) this =? 0)
  then None else handle_of w this.
Proof.
  rewrite references_apply_op. destruct op; cbn [apply_op].
  - rewrite handle_increment.
    destruct (Z.eqb_spec (references w this) 1) as [-> | _]; reflexivity.
  - rewrite handle_dispose.
    destruct (Z.eqb_spec (references w this) 1) as [-> | _]; reflexivity.
Qed.

(** X5: once the count has dropped from 1 to 0 the handle is null for
    good: raising the count again with [incrementReferences()] does not
    bring a handle back.  Until then the handle is the initial one. *)
Theorem X5_released_handle_stays_null this ops w :
  handle_of (run_ops this ops w) this =
  match drops_to_zero this ops w with
  | O => handle_of w this
  | S _ => None
  end.
Proof.
  revert w. induction ops as [| op ops IH]; intros w; [reflexivity |].
  cbn [run_ops drops_to_zero]. rewrite IH, handle_apply_op.
  destruct ((references w this =? 1)
            && (references (apply_op this op w) this =? 0));
    cbn [Nat.add]; [| reflexivity].
  now destruct (drops_to_zero this ops (apply_op this op w)).
Qed.

(** ** More on ownership transfer *)

Section TransferFacts.

Variables s t : addr.

Lemma trace_notify_usage w :
  trace (notify_usage s t w) = trace w ++ usage_notice (heap w s) (heap w t).
Proof.
  unfold notify_usage, usage_notice.
  destruct (_hardwareTexture (heap w s)); [reflexivity |].
  now rewrite app_nil_r.
Qed.

Lemma trace_move_slot slot set_slot w :
  trace (move_slot slot set_slot s t w)
  = trace w ++ slot_disposal slot (heap w s) (heap w t).
Proof.
  unfold move_slot, slot_disposal.
  destruct (slot (heap w s)); [| now rewrite app_nil_r].
  destruct (slot (heap w t)); [reflexivity |].
  now rewrite trace_upd, app_nil_r.
Qed.

Lemma move_slot_taken slot set_slot w :
  (forall v x, slot (set_slot v x) = v) ->
  slot (heap (move_slot slot set_slot s t w) t)
  = taken_slot slot (heap w s) (heap w t).
Proof.
  intros Hgs. rewrite heap_move_slot. unfold taken_slot.
  destruct (slot (heap w s)); [| reflexivity].
  now rewrite override_same.
Qed.

(** The world in which the slots are moved: the handle and, with
    [swapAll], the RGBD flag have been assigned. *)
Lemma swapAndDie_unfold swapAll w :
  _swapAndDie s t swapAll w =
  let w3 := assign_handle s t
              (notify_usage s t (emit (Call_swapAndDie s t swapAll) w)) in
  let w4 := if swapAll then assign_isRGBD s t w3 else w3 in
  let w8 := move_slot _irradianceTexture set__irradianceTexture s t
              (move_slot _lodTextureLow set__lodTextureLow s t
                 (move_slot _lodTextureMid set__lodTextureMid s t
                    (move_slot _lodTextureHigh set__lodTextureHigh s t w4))) in
  set_cache (swap_cache s t (cache w)) w8.
Proof.
  unfold _swapAndDie. cbv zeta. f_equal. rewrite !cache_move_slot.
  destruct swapAll; unfold assign_isRGBD, assign_handle;
    now rewrite ?cache_upd, cache_notify_usage.
Qed.

(** Before the slots are moved only the handle and the flag of the target
    have been written. *)
Lemma swap_head_field {A} (field : InternalTexture -> A) (swapAll : bool) w a :
  (forall v x, field (set__hardwareTexture v x) = field x) ->
  (forall v x, field (set__isRGBD v x) = field x) ->
  field (heap (if swapAll
               then assign_isRGBD s t
                      (assign_handle s t
                         (notify_usage s t
                            (emit (Call_swapAndDie s t swapAll) w)))
               else assign_handle s t
                      (notify_usage s t
                         (emit (Call_swapAndDie s t swapAll) w))) a)
  = field (heap w a).
Proof.
  intros Hh Hr.
  destruct swapAll; unfold assign_isRGBD, assign_handle;
    rewrite ?upd_preserves by auto; now rewrite heap_notify_usage, heap_emit.
Qed.

Lemma swap_head_trace (swapAll : bool) w :
  trace (if swapAll
         then assign_isRGBD s t
                (assign_handle s t
                   (notify_usage s t (emit (Call_swapAndDie s t swapAll) w)))
         else assign_handle s t
                (notify_usage s t (emit (Call_swapAndDie s t swapAll) w)))
  = trace w ++ Call_swapAndDie s t swapAll
               :: usage_notice (heap w s) (heap w t).
Proof.
  destruct swapAll; unfold assign_isRGBD, assign_handle;
    rewrite ?trace_upd, trace_notify_usage, trace_emit, heap_emit,
      <- app_assoc; reflexivity.
Qed.

(** The calls a transfer makes, in order. *)
Lemma trace_swapAndDie swapAll w :
  trace (_swapAndDie s t swapAll w)
  = trace w
    ++ Call_swapAndDie s t swapAll
       :: usage_notice (heap w s) (heap w t)
       ++ slot_disposal _lodTextureHigh (heap w s) (heap w t)
       ++ slot_disposal _lodTextureMid (heap w s) (heap w t)
       ++ slot_disposal _lodTextureLow (heap w s) (heap w t)
       ++ slot_disposal _irradianceTexture (heap w s) (heap w t).
Proof.
  rewrite swapAndDie_unfold. cbv zeta. cbn [trace set_cache].
  rewrite !trace_move_slot. unfold slot_disposal.
  rewrite !move_slot_field by reflexivity.
  rewrite !swap_head_field by reflexivity.
  rewrite swap_head_trace.
  repeat (rewrite <- ?app_assoc; cbn [app]). reflexivity.
Qed.

Lemma slot_after_swapAndDie swapAll w :
  let w' := _swapAndDie s t swapAll w in
  _lodTextureHigh (heap w' t) = taken_slot _lodTextureHigh (heap w s) (heap w t)
  /\ _lodTextureMid (heap w' t) = taken_slot _lodTextureMid (heap w s) (heap w t)
  /\ _lodTextureLow (heap w' t) = taken_slot _lodTextureLow (heap w s) (heap w t)
  /\ _irradianceTexture (heap w' t)
     = taken_slot _irradianceTexture (heap w s) (heap w t).
Proof.
  cbv zeta. rewrite swapAndDie_unfold. cbv zeta. cbn [heap set_cache].
  repeat split.
  - rewrite !(move_slot_field _ _ _lodTextureHigh) by reflexivity.
    rewrite move_slot_taken by reflexivity. unfold taken_slot.
    now rewrite !swap_head_field by reflexivity.
  - rewrite !(move_slot_field _ _ _lodTextureMid _irradianceTexture),
      !(move_slot_field _ _ _lodTextureMid _lodTextureLow) by reflexivity.
    rewrite move_slot_taken by reflexivity. unfold taken_slot.
    rewrite !(move_slot_field _ _ _lodTextureMid) by reflexivity.
    now rewrite !swap_head_field by reflexivity.
  - rewrite !(move_slot_field _ _ _lodTextureLow _irradianceTexture) by reflexivity.
    rewrite move_slot_taken by reflexivity. unfold taken_slot.
    rewrite !(move_slot_field _ _ _lodTextureLow) by reflexivity.
    now rewrite !swap_head_field by reflexivity.
  - rewrite move_slot_taken by reflexivity. unfold taken_slot.
    rewrite !(move_slot_field _ _ _irradianceTexture) by reflexivity.
    now rewrite !swap_head_field by reflexivity.
Qed.

Lemma isRGBD_after_swapAndDie swapAll w :
  _isRGBD (heap (_swapAndDie s t swapAll w) t)
  = if swapAll then _isRGBD (heap w s) else _isRGBD (heap w t).
Proof.
  rewrite swapAndDie_unfold. cbv zeta. cbn [heap set_cache].
  rewrite !move_slot_field by reflexivity.
  destruct swapAll; unfold assign_isRGBD, assign_handle.
  - rewrite heap_upd_same. cbn. rewrite upd_preserves by reflexivity.
    now rewrite heap_notify_usage, heap_emit.
  - rewrite upd_preserves by reflexivity.
    now rewrite heap_notify_usage, heap_emit.
Qed.

End TransferFacts.

(** X6: what a transfer leaves in the target: the source's handle; the
    source's RGBD flag when [swapAll] is set, its own otherwise; in each
    derived-texture slot the source's texture when the source holds one,
    its own otherwise.  No other field of the target changes (its
    reference count in particular) and no other descriptor changes, the
    source included. *)
Theorem X6_transfer_result s t swapAll w :
  let w' := _swapAndDie s t swapAll w in
  let src := heap w s in
  let tgt := heap w t in
  _hardwareTexture (heap w' t) = _hardwareTexture src
  /\ _isRGBD (heap w' t) = (if swapAll then _isRGBD src else _isRGBD tgt)
  /\ _lodTextureHigh (heap w' t) = taken_slot _lodTextureHigh src tgt
  /\ _lodTextureMid (heap w' t) = taken_slot _lodTextureMid src tgt
  /\ _lodTextureLow (heap w' t) = taken_slot _lodTextureLow src tgt
  /\ _irradianceTexture (heap w' t) = taken_slot _irradianceTexture src tgt
  /\ (forall A (field : InternalTexture -> A) a,
        transfer_frame field -> field (heap w' a) = field (heap w a))
  /\ references w' t = references w t
  /\ (forall a, a <> t -> heap w' a = heap w a).
Proof.
  cbv zeta.
  destruct (slot_after_swapAndDie s t swapAll w) as (H1 & H2 & H3 & H4).
  repeat split; try assumption.
  - apply handle_swapAndDie_target.
  - apply isRGBD_after_swapAndDie.
  - intros A field a (Hh & Hr & F1 & F2 & F3 & F4).
    apply swapAndDie_field; auto.
  - apply (swapAndDie_field s t _references); reflexivity.
  - intros a Ha. now apply swapAndDie_other.
Qed.

Lemma transfer_events_added src tgt :
  Forall (fun e => transfer_event e = true)
    (usage_notice src tgt
     ++ slot_disposal _lodTextureHigh src tgt
     ++ slot_disposal _lodTextureMid src tgt
     ++ slot_disposal _lodTextureLow src tgt
     ++ slot_disposal _irradianceTexture src tgt).
Proof.
  unfold usage_notice, slot_disposal.
  repeat (apply Forall_app; split);
    repeat match goal with
           | |- context [match ?x with _ => _ end] => destruct x
           end;
    repeat constructor.
Qed.

Lemma filter_none {A} (p q : A -> bool) l :
  (forall e, q e = true -> p e = false) ->
  Forall (fun e => q e = true) l -> filter p l = [].
Proof.
  intros Hpq. induction 1 as [| e l He Hl IH]; [reflexivity |].
  cbn. now rewrite (Hpq e He).
Qed.

(** X7: the calls of a transfer, in order: [setUsage] on the source's
    handle when it has one, with the target's source kind and the source's
    mipmap flag, cube flag, width and height; then, slot by slot (high,
    mid, low, irradiance), [dispose()] on the texture the target held
    where both hold one.  The source's textures are never disposed here
    and [_releaseTexture] is never called, so the handle the target held
    before is dropped without being released. *)
Theorem X7_transfer_calls s t swapAll w :
  let w' := _swapAndDie s t swapAll w in
  let src := heap w s in
  let tgt := heap w t in
  trace w'
  = trace w
    ++ Call_swapAndDie s t swapAll
       :: usage_notice src tgt
       ++ slot_disposal _lodTextureHigh src tgt
       ++ slot_disposal _lodTextureMid src tgt
       ++ slot_disposal _lodTextureLow src tgt
       ++ slot_disposal _irradianceTexture src tgt
  /\ (forall a, releases w' a = releases w a).
Proof.
  cbv zeta. split; [apply trace_swapAndDie |].
  intros a. unfold releases. rewrite trace_swapAndDie, filter_app.
  match goal with
  | |- context [filter _ (Call_swapAndDie ?x ?y ?b :: ?l)] =>
      rewrite (filter_none (is_release a) transfer_event
                 (Call_swapAndDie x y b :: l))
  end.
  - now rewrite app_nil_r.
  - now intros [].
  - constructor; [reflexivity | apply transfer_events_added].
Qed.

Lemma set_get_hardwareTexture x :
  set__hardwareTexture (_hardwareTexture x) x = x.
Proof. now destruct x. Qed.

Lemma set_get_isRGBD x : set__isRGBD (_isRGBD x) x = x.
Proof. now destruct x. Qed.

(** Moving a slot of a descriptor into itself changes no object. *)
Lemma self_move_slot slot set_slot t w a :
  (forall x, set_slot (slot x) x = x) ->
  heap (move_slot slot set_slot t t w) a = heap w a.
Proof.
  intros Heta. rewrite heap_move_slot.
  destruct (slot (heap w t)) eqn:E; [| reflexivity].
  unfold override. destruct (Nat.eqb_spec a t) as [-> | _]; [| reflexivity].
  rewrite <- E. apply Heta.
Qed.

Lemma self_swapAndDie_heap t swapAll w a :
  heap (_swapAndDie t t swapAll w) a = heap w a.
Proof.
  rewrite swapAndDie_unfold. cbv zeta. cbn [heap set_cache].
  rewrite !self_move_slot by (intros x; now destruct x).
  assert (H3 : heap (assign_handle t t
                       (notify_usage t t (emit (Call_swapAndDie t t swapAll) w))) a
               = heap w a).
  { unfold assign_handle. rewrite heap_upd, heap_notify_usage, heap_emit.
    destruct (Nat.eqb_spec a t) as [-> | _];
      [apply set_get_hardwareTexture | reflexivity]. }
  destruct swapAll; [| exact H3].
  unfold assign_isRGBD. rewrite heap_upd.
  destruct (Nat.eqb_spec a t) as [-> | _]; [| exact H3].
  rewrite set_get_isRGBD. exact H3.
Qed.

(** X8: a descriptor transferred into itself keeps every field, and so
    does every other descriptor, but [dispose()] is called on each derived
    texture it holds while it goes on referencing them; in the cache one
    listing of it is taken out and, if none is left, it is put back at the
    end. *)
Theorem X8_self_transfer t swapAll w :
  let w' := _swapAndDie t t swapAll w in
  let x := heap w t in
  (forall a, heap w' a = heap w a)
  /\ (forall b,
        In (Some b) [_lodTextureHigh x; _lodTextureMid x; _lodTextureLow x;
                     _irradianceTexture x] ->
        In (Ev_BaseTexture_dispose b) (trace w'))
  /\ count_occ Nat.eq_dec (cache w') t
     = Nat.max 1 (pred (count_occ Nat.eq_dec (cache w) t)).
Proof.
  cbv zeta. split; [intros a; apply self_swapAndDie_heap |]. split.
  - intros b Hb. rewrite trace_swapAndDie. unfold slot_disposal.
    apply in_or_app. right. right. apply in_or_app. right.
    cbn [In] in Hb.
    destruct Hb as [E | [E | [E | [E | []]]]]; rewrite E;
      repeat first [ apply in_eq
                   | apply in_or_app; (left; apply in_eq) || right ].
  - rewrite cache_swapAndDie, count_occ_swap_cache. cbv zeta.
    now destruct (Nat.eq_dec t t).
Qed.

Lemma filter_splice1 (p : addr -> bool) x l i :
  indexOf x l = Some i -> p x = false ->
  filter p (splice1 i l) = filter p l.
Proof.
  intros Hi Hp. revert i Hi. induction l as [| y l IH]; intros i Hi;
    [discriminate |].
  cbn [indexOf] in Hi. destruct (Nat.eqb_spec y x) as [Eyx | Hyx].
  - injection Hi as <-. cbn [splice1 filter]. now rewrite Eyx, Hp.
  - destruct (indexOf x l) as [j |]; [| discriminate].
    injection Hi as <-. cbn [splice1 filter]. now rewrite (IH j eq_refl).
Qed.

Lemma filter_swap_cache s t l :
  filter (bystander s t) (swap_cache s t l) = filter (bystander s t) l.
Proof.
  assert (Hs : bystander s t s = false).
  { unfold bystander. now rewrite Nat.eqb_refl. }
  assert (Ht : bystander s t t = false).
  { unfold bystander. rewrite Nat.eqb_refl. apply andb_false_r. }
  unfold swap_cache.
  set (l1 := match indexOf s l with Some i => splice1 i l | None => l end).
  assert (H1 : filter (bystander s t) l1 = filter (bystander s t) l).
  { unfold l1. destruct (indexOf s l) eqn:E; [| reflexivity].
    now apply (filter_splice1 _ s). }
  destruct (indexOf t l1); [exact H1 |].
  rewrite filter_app. cbn [filter]. now rewrite Ht, app_nil_r.
Qed.

Lemma indexOf_split x l i :
  indexOf x l = Some i ->
  exists pre post,
    l = pre ++ x :: post /\ ~ In x pre /\ splice1 i l = pre ++ post.
Proof.
  revert i. induction l as [| y l IH]; intros i Hi; [discriminate |].
  cbn [indexOf] in Hi. destruct (Nat.eqb_spec y x) as [Eyx | Hyx].
  - injection Hi as <-. exists [], l. rewrite Eyx. cbn. auto.
  - destruct (indexOf x l) as [j |]; [| discriminate].
    injection Hi as <-. destruct (IH j eq_refl) as (pre & post & Hl & Hpre & Hsp).
    exists (y :: pre), post. cbn [splice1 app]. rewrite Hsp, Hl.
    repeat split. intros [E | Hin]; [now apply Hyx | now apply Hpre].
Qed.

Lemma indexOf_In x l : indexOf x l = None <-> ~ In x l.
Proof.
  rewrite indexOf_None. symmetry. apply (count_occ_not_In Nat.eq_dec).
Qed.

(** The cache update of [_swapAndDie], in terms of the list alone. *)
Lemma swap_cache_shape s t l :
  exists l1,
    ((~ In s l /\ l1 = l)
     \/ (exists pre post,
           l = pre ++ s :: post /\ ~ In s pre /\ l1 = pre ++ post))
    /\ ((In t l1 /\ swap_cache s t l = l1)
        \/ (~ In t l1 /\ swap_cache s t l = l1 ++ [t])).
Proof.
  unfold swap_cache.
  set (l1 := match indexOf s l with Some i => splice1 i l | None => l end).
  exists l1. split.
  - unfold l1. destruct (indexOf s l) as [i |] eqn:Hi.
    + right. destruct (indexOf_split s l i Hi) as (pre & post & H1 & H2 & H3).
      now exists pre, post.
    + left. split; [now apply indexOf_In | reflexivity].
  - destruct (indexOf t l1) as [j |] eqn:Hj.
    + left. split; [| reflexivity].
      destruct (in_dec Nat.eq_dec t l1) as [Hin | Hnin]; [exact Hin |].
      apply indexOf_In in Hnin. rewrite Hnin in Hj. discriminate Hj.
    + right. split; [now apply indexOf_In | reflexivity].
Qed.

(** X9: what a transfer does to the loaded-textures cache, duplicates or
    not.  The first listing of the source, if there is one, is taken out
    (later listings stay); then the target is pushed at the end, unless it
    is still listed, in which case nothing is added.  So the other
    descriptors keep their listings in the same order, and the target is
    always listed afterwards. *)
Theorem X9_transfer_cache s t swapAll w :
  let w' := _swapAndDie s t swapAll w in
  (exists l1,
      ((~ In s (cache w) /\ l1 = cache w)
       \/ (exists pre post,
             cache w = pre ++ s :: post /\ ~ In s pre /\ l1 = pre ++ post))
      /\ ((In t l1 /\ cache w' = l1)
          \/ (~ In t l1 /\ cache w' = l1 ++ [t])))
  /\ (forall a,
        count_occ Nat.eq_dec (cache w') a =
        let c := if Nat.eq_dec a s then pred (count_occ Nat.eq_dec (cache w) a)
                 else count_occ Nat.eq_dec (cache w) a in
        if Nat.eq_dec a t then Nat.max 1 c else c)
  /\ filter (bystander s t) (cache w') = filter (bystander s t) (cache w)
  /\ In t (cache w').
Proof.
  cbv zeta. rewrite cache_swapAndDie.
  split; [apply swap_cache_shape |]. split; [| split].
  - intros a. apply count_occ_swap_cache.
  - apply filter_swap_cache.
  - apply (count_occ_In Nat.eq_dec). rewrite count_occ_swap_cache. cbv zeta.
    destruct (Nat.eq_dec t t); [| congruence]. unfold addr in *. lia.
Qed.

(** ** More on rebuild *)

Section RebuildMore.

Variable engine : Engine.
Variable onRebuild : CallbackId -> addr -> World -> RebuildData.

Lemma engine_create_full call w :
  let p := fst (engine_create engine call w) in
  let w1 := snd (engine_create engine call w) in
  p = nextAddr w
  /\ nextAddr w1 = S (nextAddr w)
  /\ heap w1 p = engine_newTexture engine call w
  /\ (forall a, allocated w a -> heap w1 a = heap w a)
  /\ trace w1 = trace w ++ [Ev_create call p]
  /\ cache w1 = (if engine_registers engine call w
                 then cache w ++ [p] else cache w).
Proof.
  destruct (engine_create_spec engine call w) as (Hp & Hn & Hf & Ht).
  cbv zeta. repeat split; try assumption.
  - unfold engine_create. cbn [alloc]. cbv zeta.
    destruct (engine_registers engine call w); cbn [fst snd];
      rewrite ?(heap_emit); cbn; apply override_same.
  - unfold engine_create. cbn [alloc]. cbv zeta.
    now destruct (engine_registers engine call w).
Qed.

Lemma swap_then_ready_spec p this r w :
  let w' := swap_then_ready p this r w in
  isReady (heap w' this) = r
  /\ handle_of w' this = handle_of w p
  /\ cache w' = swap_cache p this (cache w)
  /\ nextAddr w' = nextAddr w
  /\ creates w' = creates w.
Proof.
  cbv zeta. unfold swap_then_ready. repeat split.
  - now rewrite heap_upd_same.
  - unfold handle_of. rewrite upd_preserves by reflexivity.
    apply handle_swapAndDie_target.
  - rewrite cache_upd. apply cache_swapAndDie.
  - change (nextAddr (upd ?a ?f ?x)) with (nextAddr x).
    apply nextAddr_swapAndDie.
  - unfold creates. rewrite trace_upd, trace_swapAndDie, filter_app.
    match goal with
    | |- context [filter _ (Call_swapAndDie ?x ?y ?b :: ?l)] =>
        rewrite (filter_none is_create transfer_event
                   (Call_swapAndDie x y b :: l))
    end.
    + apply app_nil_r.
    + now intros [].
    + constructor; [reflexivity | apply transfer_events_added].
Qed.

Lemma creates_after_create call p w w1 :
  trace w1 = trace w ++ [Ev_create call p] ->
  creates w1 = creates w ++ [Ev_create call p].
Proof. intros H. unfold creates. now rewrite H, filter_app. Qed.

(** The proxy the engine has just created leaves a well-kept cache when
    it is transferred into an existing descriptor. *)
Lemma fresh_proxy_leaves_cache call this w :
  cache_ok w -> allocated w this ->
  let p := fst (engine_create engine call w) in
  let w1 := snd (engine_create engine call w) in
  ~ In p (swap_cache p this (cache w1))
  /\ NoDup (cache w1).
Proof.
  intros (Hnd & Hall) Ha. cbv zeta.
  destruct (engine_create_full call w) as (Hp & _ & _ & _ & _ & Hc).
  assert (Hfresh : ~ In (nextAddr w) (cache w)).
  { intros Hin. rewrite Forall_forall in Hall. apply Hall in Hin.
    unfold allocated in Hin. lia. }
  assert (Hnd1 : NoDup (cache (snd (engine_create engine call w)))).
  { rewrite Hc. destruct (engine_registers engine call w); [| exact Hnd].
    rewrite Hp. apply NoDup_app;
      [exact Hnd | repeat constructor; intros []
      | intros x Hx [E | []]; subst x; contradiction]. }
  split; [| exact Hnd1].
  apply swap_cache_source_gone; [exact Hnd1 |].
  rewrite Hp. unfold allocated in Ha. lia.
Qed.

End RebuildMore.

Lemma swap_cache_has_target s t l : In t (swap_cache s t l).
Proof.
  apply (count_occ_In Nat.eq_dec). rewrite count_occ_swap_cache. cbv zeta.
  destruct (Nat.eq_dec t t); [| congruence]. unfold addr in *. lia.
Qed.

Section RebuildPaths.

Variable engine : Engine.
Variable onRebuild : CallbackId -> addr -> World -> RebuildData.

(** Creating a proxy and transferring it at once. *)
Lemma create_then_transfer call this r w0 :
  allocated w0 this ->
  let p := fst (engine_create engine call w0) in
  let w' := swap_then_ready p this r (snd (engine_create engine call w0)) in
  p = nextAddr w0
  /\ creates w' = creates w0 ++ [Ev_create call p]
  /\ isReady (heap w' this) = r
  /\ handle_of w' this = _hardwareTexture (engine_newTexture engine call w0)
  /\ In this (cache w')
  /\ (cache_ok w0 -> ~ In p (cache w') /\ NoDup (cache w')).
Proof.
  intros Ha. cbv zeta.
  destruct (engine_create_full engine call w0) as (Hp & _ & Hh & _ & Ht & _).
  destruct (swap_then_ready_spec (fst (engine_create engine call w0)) this r
              (snd (engine_create engine call w0)))
    as (Hr & Hhd & Hc & _ & Hcr).
  split; [exact Hp |]. split; [| split; [exact Hr |]; split; [| split]].
  - rewrite Hcr. now apply creates_after_create.
  - rewrite Hhd. unfold handle_of. now rewrite Hh.
  - rewrite Hc. apply swap_cache_has_target.
  - intros Hok. rewrite Hc.
    destruct (fresh_proxy_leaves_cache engine call this w0 Hok Ha)
      as (Hgone & Hnd).
    split; [exact Hgone | now apply NoDup_swap_cache].
Qed.

Lemma rebuild_reset_keeps this w :
  source (rebuild_reset this w) this = source w this
  /\ onRebuildCallback (heap (rebuild_reset this w) this)
     = onRebuildCallback (heap w this)
  /\ handle_of (rebuild_reset this w) this = handle_of w this
  /\ cache (rebuild_reset this w) = cache w
  /\ nextAddr (rebuild_reset this w) = nextAddr w
  /\ trace (rebuild_reset this w) = trace w
  /\ isReady (heap (rebuild_reset this w) this) = false.
Proof.
  unfold source, handle_of.
  rewrite (rebuild_reset_field _source), (rebuild_reset_field onRebuildCallback)
    by frame.
  rewrite !rebuild_reset_this. repeat split.
Qed.

(** X10: for a Raw, Raw3D, Raw2DArray or CubeRaw descriptor without a
    custom callback, [_rebuild()] returns with the work done: one creation
    call was made, the descriptor is ready and holds the handle of the
    descriptor the engine created, no handler is pending and the
    descriptor is listed in the cache; when the cache was well kept
    (existing descriptors, none twice) the proxy is not listed in it. *)
Theorem X10_rebuild_synchronous this w :
  allocated w this ->
  rebuild_sync (source w this) = true ->
  onRebuildCallback (heap w this) = None ->
  let o := _rebuild engine onRebuild this w in
  let w' := world_of o in
  let p := nextAddr w in
  exists call,
    pending_of o = None
    /\ o = Returned w' None
    /\ creates w' = creates w ++ [Ev_create call p]
    /\ isReady (heap w' this) = true
    /\ handle_of w' this
       = _hardwareTexture (engine_newTexture engine call (rebuild_reset this w))
    /\ In this (cache w')
    /\ (cache_ok w -> ~ In p (cache w') /\ NoDup (cache w')).
Proof.
  intros Ha Hs Hcb. cbv zeta.
  destruct (rebuild_reset_keeps this w) as (Hs0 & Hcb0 & _ & Hc0 & Hn0 & Ht0 & _).
  assert (Ha0 : allocated (rebuild_reset this w) this) by exact Ha.
  assert (Hok : cache_ok w -> cache_ok (rebuild_reset this w)).
  { unfold cache_ok, allocated. now rewrite Hc0, Hn0. }
  unfold _rebuild, rebuild_recreate. rewrite Hcb0, Hcb.
  unfold rebuild_switch. cbv zeta. rewrite Hs0.
  destruct (source w this); try discriminate Hs;
    match goal with
    | |- context [engine_create engine ?c ?w0] =>
        pose proof (create_then_transfer c this true w0 Ha0) as H;
        cbv zeta in H; exists c;
        destruct (engine_create engine c w0) as [q w1]; cbn [fst snd] in H;
        destruct H as (Hq & Hcr & Hr & Hh & Hin & Hgone)
    end;
    cbn [world_of pending_of];
    (split; [reflexivity |]); (split; [reflexivity |]);
    (split; [rewrite Hcr; unfold creates; now rewrite Ht0, Hq, Hn0 |]);
    (split; [exact Hr |]); (split; [exact Hh |]); (split; [exact Hin |]);
    intros Hw; rewrite <- Hn0, <- Hq; now apply Hgone, Hok.
Qed.

End RebuildPaths.

Lemma two_textures_cache_ok : cache_ok two_textures.
Proof.
  split.
  - cbn. repeat constructor; cbn; intuition discriminate.
  - cbn. repeat constructor; unfold allocated; cbn; lia.
Qed.

Lemma X10_rebuild_synchronous_witness :
  let w' := world_of (_rebuild loading_engine no_callbacks 0%nat two_textures) in
  allocated two_textures 0%nat
  /\ rebuild_sync (source two_textures 0%nat) = true
  /\ onRebuildCallback (heap two_textures 0%nat) = None
  /\ cache_ok two_textures
  /\ isReady (heap w' 0%nat) = true
  /\ handle_of w' 0%nat = Some 42%nat
  /\ ~ In 2%nat (cache w').
Proof.
  assert (Ha : allocated two_textures 0%nat).
  { unfold allocated. change (0 < 2)%nat. lia. }
  destruct (X10_rebuild_synchronous loading_engine no_callbacks 0%nat
              two_textures Ha eq_refl eq_refl)
    as (call & _ & _ & _ & Hr & _ & _ & Hgone).
  cbv zeta. split; [exact Ha |]. split; [reflexivity |].
  split; [reflexivity |]. split; [apply two_textures_cache_ok |].
  split; [exact Hr |]. split; [reflexivity |].
  apply (Hgone two_textures_cache_ok).
Defined.

Section Completion.

Variable engine : Engine.
Variable onRebuild : CallbackId -> addr -> World -> RebuildData.

(** X11: what a handler handed to one of the engine's loaders does when
    it runs after [_rebuild()] has returned.  Handed a proxy (the cube
    handler uses the descriptor its creation call returned, whatever it is
    handed), it transfers from it with [swapAll] off into its descriptor,
    which then holds the proxy's handle, and sets the ready flag.  Handed
    nothing, the prefiltered-cube handler still sets the ready flag, with
    the handle the descriptor had and no transfer, while the url handler
    throws and changes nothing. *)
Theorem X11_completion_handlers k arg w :
  loader_handler k = true ->
  let this := pending_this k in
  let o := resume k arg w in
  match handler_proxy k arg with
  | Some p =>
      o = Returned (swap_then_ready p this true w) None
      /\ isReady (heap (world_of o) this) = true
      /\ handle_of (world_of o) this = handle_of w p
      /\ transfers (world_of o) = transfers w ++ [Call_swapAndDie p this false]
  | None =>
      match k with
      | OnPrefilteredLoad _ =>
          o = Returned (upd this (set_isReady true) w) None
          /\ isReady (heap (world_of o) this) = true
          /\ handle_of (world_of o) this = handle_of w this
          /\ transfers (world_of o) = transfers w
      | _ => o = Threw w
      end
  end.
Proof.
  intros Hk. cbv zeta.
  destruct k as [this | this q | this | this r]; [| | | discriminate Hk];
    destruct arg as [p |];
    cbn [handler_proxy pending_this resume world_of];
    try reflexivity;
    try (destruct (swap_then_ready_spec p this true w) as (Hr & Hh & _);
         split; [reflexivity |]; split; [exact Hr |]; split; [exact Hh |];
         apply transfers_swap_then_ready).
  - destruct (swap_then_ready_spec q this true w) as (Hr & Hh & _).
    split; [reflexivity |]. split; [exact Hr |]. split; [exact Hh |].
    apply transfers_swap_then_ready.
  - destruct (swap_then_ready_spec q this true w) as (Hr & Hh & _).
    split; [reflexivity |]. split; [exact Hr |]. split; [exact Hh |].
    apply transfers_swap_then_ready.
  - split; [reflexivity |]. split; [now rewrite heap_upd_same |].
    split; [| reflexivity].
    unfold handle_of. now rewrite upd_preserves by reflexivity.
Qed.

(** After a creation call whose proxy [p] holds the created handle, the
    descriptor waits as it was, and the transfer brings the handle in. *)
Lemma completes_after_create call this w0 w1 :
  allocated w0 this ->
  heap w1 this = heap (snd (engine_create engine call w0)) this ->
  handle_of w1 (nextAddr w0)
  = _hardwareTexture (engine_newTexture engine call w0) ->
  cache w1 = cache (snd (engine_create engine call w0)) ->
  let w2 := swap_then_ready (nextAddr w0) this true w1 in
  heap w1 this = heap w0 this
  /\ isReady (heap w2 this) = true
  /\ handle_of w2 this = _hardwareTexture (engine_newTexture engine call w0)
  /\ In this (cache w2)
  /\ (cache_ok w0 -> ~ In (nextAddr w0) (cache w2)).
Proof.
  intros Ha Hthis Hh Hc. cbv zeta.
  destruct (engine_create_full engine call w0) as (Hp & _ & _ & Hf & _ & _).
  destruct (swap_then_ready_spec (nextAddr w0) this true w1)
    as (Hr & Hhd & Hc2 & _).
  split; [now rewrite Hthis, Hf |]. split; [exact Hr |].
  split; [now rewrite Hhd |]. split.
  - rewrite Hc2. apply swap_cache_has_target.
  - intros Hok. rewrite Hc2, Hc, <- Hp.
    now apply fresh_proxy_leaves_cache.
Qed.

Lemma rebuild_async_spec this w :
  allocated w this ->
  rebuild_async (source w this) = true ->
  onRebuildCallback (heap w this) = None ->
  let o := _rebuild engine onRebuild this w in
  let w1 := world_of o in
  let p := nextAddr w in
  exists call k,
    o = Returned w1 (Some k)
    /\ pending_this k = this
    /\ handler_proxy k (Some p) = Some p
    /\ creates w1 = creates w ++ [Ev_create call p]
    /\ transfers w1 = transfers w
    /\ isReady (heap w1 this) = false
    /\ handle_of w1 this = handle_of w this
    /\ (let w2 := world_of (resume k (Some p) w1) in
        isReady (heap w2 this) = true
        /\ handle_of w2 this
           = _hardwareTexture
               (engine_newTexture engine call (rebuild_reset this w))
        /\ In this (cache w2)
        /\ (cache_ok w -> ~ In p (cache w2))).
Proof.
  intros Ha Hs Hcb. cbv zeta.
  destruct (rebuild_reset_keeps this w)
    as (Hs0 & Hcb0 & Hh0 & Hc0 & Hn0 & Ht0 & Hr0).
  assert (Ha0 : allocated (rebuild_reset this w) this) by exact Ha.
  assert (Hok : cache_ok w -> cache_ok (rebuild_reset this w)).
  { unfold cache_ok, allocated. now rewrite Hc0, Hn0. }
  assert (Hne : nextAddr (rebuild_reset this w) <> this).
  { unfold allocated in Ha0. lia. }
  unfold _rebuild, rebuild_recreate. rewrite Hcb0, Hcb.
  unfold rebuild_switch. cbv zeta. rewrite Hs0.
  destruct (source w this); try discriminate Hs;
    match goal with
    | |- context [engine_create engine ?c ?w0] =>
        pose proof (engine_create_full engine c w0) as Hec;
        pose proof (completes_after_create c this w0) as Hdone;
        cbv zeta in Hec, Hdone; exists c;
        destruct (engine_create engine c w0) as [q w1];
        cbn [fst snd] in Hec, Hdone;
        destruct Hec as (Hq & _ & Hhq & Hf & Htr & _); subst q
    end;
    cbn [world_of pending_of].
  - (* Url *)
    exists (OnUrlLoad this).
    destruct (Hdone w1 Ha0 eq_refl) as (Hsame & Hr & Hh & Hin & Hgone);
      [unfold handle_of; now rewrite Hhq | reflexivity |].
    change (nextAddr (rebuild_reset this w)) with (nextAddr w) in *.
    split; [reflexivity |]. split; [reflexivity |]. split; [reflexivity |].
    split; [unfold creates in *; rewrite <- Ht0;
            now apply creates_after_create |].
    split; [rewrite (transfers_create _ _ _ _ Htr); unfold transfers;
            now rewrite Ht0 |].
    split; [now rewrite Hsame |].
    split; [unfold handle_of in *; now rewrite Hsame |].
    cbn [resume world_of].
    split; [exact Hr |]. split; [exact Hh |]. split; [exact Hin |].
    intros Hw. now apply Hgone, Hok.
  - (* Cube *)
    exists (OnCubeLoad this (nextAddr (rebuild_reset this w))).
    destruct (Hdone w1 Ha0 eq_refl) as (Hsame & Hr & Hh & Hin & Hgone);
      [unfold handle_of; now rewrite Hhq | reflexivity |].
    change (nextAddr (rebuild_reset this w)) with (nextAddr w) in *.
    split; [reflexivity |]. split; [reflexivity |]. split; [reflexivity |].
    split; [unfold creates in *; rewrite <- Ht0;
            now apply creates_after_create |].
    split; [rewrite (transfers_create _ _ _ _ Htr); unfold transfers;
            now rewrite Ht0 |].
    split; [now rewrite Hsame |].
    split; [unfold handle_of in *; now rewrite Hsame |].
    cbn [resume world_of].
    split; [exact Hr |]. split; [exact Hh |]. split; [exact Hin |].
    intros Hw. now apply Hgone, Hok.
  - (* CubePrefiltered *)
    exists (OnPrefilteredLoad this).
    match goal with
    | |- context [upd ?a ?f w1] =>
        destruct (Hdone (upd a f w1) Ha0) as (Hsame & Hr & Hh & Hin & Hgone)
    end.
    { now rewrite heap_upd_other by (intros E; now apply Hne). }
    { unfold handle_of. rewrite heap_upd_same. cbn. now rewrite Hhq. }
    { reflexivity. }
    change (nextAddr (rebuild_reset this w)) with (nextAddr w) in *.
    split; [reflexivity |]. split; [reflexivity |]. split; [reflexivity |].
    split; [unfold creates in *; rewrite trace_upd, <- Ht0;
            now apply creates_after_create |].
    split; [rewrite transfers_upd, (transfers_create _ _ _ _ Htr);
            unfold transfers; now rewrite Ht0 |].
    split; [now rewrite Hsame |].
    split; [unfold handle_of in *; now rewrite Hsame |].
    cbn [resume world_of].
    split; [exact Hr |]. split; [exact Hh |]. split; [exact Hin |].
    intros Hw. now apply Hgone, Hok.
Qed.

End Completion.

Section OtherPaths.

Variable engine : Engine.
Variable onRebuild : CallbackId -> addr -> World -> RebuildData.

(** X13: when the loader of a CubePrefiltered rebuild completes without a
    texture, the handler flags the descriptor ready all the same: it is
    ready while holding the handle it had before the rebuild, nothing has
    been transferred, and the cache is as the creation call left it. *)
Theorem X13_prefiltered_completes_empty this w :
  allocated w this ->
  source w this = CubePrefiltered ->
  onRebuildCallback (heap w this) = None ->
  let o := _rebuild engine onRebuild this w in
  let w2 := world_of (resume (OnPrefilteredLoad this) None (world_of o)) in
  pending_of o = Some (OnPrefilteredLoad this)
  /\ isReady (heap w2 this) = true
  /\ handle_of w2 this = handle_of w this
  /\ transfers w2 = transfers w
  /\ cache w2 = cache (world_of o).
Proof.
  intros Ha Hs Hcb. cbv zeta.
  assert (Hasync : rebuild_async (source w this) = true) by now rewrite Hs.
  destruct (rebuild_async_spec engine onRebuild this w Ha Hasync Hcb)
    as (call & k & Ho & _ & _ & _ & Htr & _ & Hh & _).
  assert (Hk : pending_of (_rebuild engine onRebuild this w)
               = Some (OnPrefilteredLoad this)).
  { clear Ho. unfold _rebuild, rebuild_recreate.
    destruct (rebuild_reset_keeps this w) as (Hs0 & Hcb0 & _).
    rewrite Hcb0, Hcb. unfold rebuild_switch. cbv zeta. rewrite Hs0, Hs.
    now destruct (engine_create _ _ _). }
  split; [exact Hk |]. cbn [resume world_of].
  split; [now rewrite heap_upd_same |].
  split; [unfold handle_of in *; now rewrite upd_preserves by reflexivity |].
  split; [now rewrite transfers_upd | reflexivity].
Qed.

(** X14: for a Dynamic descriptor without a custom callback,
    [_rebuild()] makes one creation call, transfers the proxy in, and only
    then asks the engine to update the dynamic texture from the rendering
    canvas, with the descriptor's own [invertY].  It does not set the
    ready flag itself: the descriptor is ready afterwards exactly when the
    engine's update flagged it. *)
Theorem X14_rebuild_dynamic this w :
  allocated w this ->
  source w this = Dynamic ->
  onRebuildCallback (heap w this) = None ->
  let o := _rebuild engine onRebuild this w in
  let w' := world_of o in
  let p := nextAddr w in
  let update := Ev_updateDynamicTexture this (invertY (heap w this)) in
  exists call ws,
    o = Returned w' None
    /\ creates w' = creates w ++ [Ev_create call p]
    /\ transfers ws = transfers w ++ [Call_swapAndDie p this false]
    /\ trace w' = trace ws ++ [update]
    /\ handle_of w' this
       = _hardwareTexture (engine_newTexture engine call (rebuild_reset this w))
    /\ isReady (heap w' this) = engine_dynamicReady engine (emit update ws).
Proof.
  intros Ha Hs Hcb. cbv zeta.
  destruct (rebuild_reset_keeps this w)
    as (Hs0 & Hcb0 & _ & _ & Hn0 & Ht0 & Hr0).
  assert (Ha0 : allocated (rebuild_reset this w) this) by exact Ha.
  unfold _rebuild, rebuild_recreate. rewrite Hcb0, Hcb.
  unfold rebuild_switch. cbv zeta. rewrite Hs0, Hs.
  match goal with
  | |- context [engine_create engine ?c ?w0] =>
      pose proof (engine_create_full engine c w0) as Hec;
      cbv zeta in Hec; exists c;
      destruct (engine_create engine c w0) as [q w1];
      cbn [fst snd] in Hec;
      destruct Hec as (Hq & _ & Hhq & Hf & Htr & _); subst q
  end.
  change (nextAddr (rebuild_reset this w)) with (nextAddr w) in *.
  set (ws := _swapAndDie (nextAddr w) this false w1).
  assert (Hinv : invertY (heap ws this) = invertY (heap w this)).
  { unfold ws. rewrite swapAndDie_field by (reflexivity || discriminate).
    rewrite (Hf this Ha0). now rewrite (rebuild_reset_field invertY) by frame. }
  assert (Hrs : isReady (heap ws this) = false).
  { unfold ws. rewrite swapAndDie_field by (reflexivity || discriminate).
    now rewrite (Hf this Ha0). }
  assert (Hcs : creates ws = creates w1).
  { destruct (swap_then_ready_spec (nextAddr w) this true w1)
      as (_ & _ & _ & _ & Hc). exact Hc. }
  exists ws. cbn [world_of]. rewrite Hinv.
  unfold engine_updateDynamicTexture.
  split; [reflexivity |]. split; [| split; [| split; [| split]]].
  - transitivity (creates ws).
    + unfold creates. destruct (engine_dynamicReady engine _);
        rewrite ?trace_upd, trace_emit, filter_app; cbn; apply app_nil_r.
    + rewrite Hcs. unfold creates in *. rewrite <- Ht0.
      now apply creates_after_create.
  - unfold ws. rewrite transfers_swapAndDie, (transfers_create _ _ _ _ Htr).
    unfold transfers. now rewrite Ht0.
  - now destruct (engine_dynamicReady engine _).
  - unfold handle_of.
    destruct (engine_dynamicReady engine _);
      rewrite ?upd_preserves by reflexivity; rewrite heap_emit, <- Hhq;
      apply handle_swapAndDie_target.
  - destruct (engine_dynamicReady engine _).
    + now rewrite heap_upd_same.
    + exact Hrs.
Qed.

End OtherPaths.

Lemma resume_with_proxy k arg p w :
  handler_proxy k arg = Some p ->
  resume k arg w
  = Returned (swap_then_ready p (pending_this k) (handler_ready k) w) None.
Proof.
  destruct k, arg; cbn; intros H; try discriminate;
    now injection H as <-.
Qed.

Lemma releases_swap_then_ready p this r w a :
  releases (swap_then_ready p this r w) a = releases w a.
Proof.
  unfold swap_then_ready, releases. rewrite trace_upd, trace_swapAndDie, filter_app.
  match goal with
  | |- context [filter _ (Call_swapAndDie ?x ?y ?b :: ?l)] =>
      rewrite (filter_none (is_release a) transfer_event
                 (Call_swapAndDie x y b :: l))
  end.
  - now rewrite app_nil_r.
  - now intros [].
  - constructor; [reflexivity | apply transfer_events_added].
Qed.


Lemma cache_alloc_all ts w :
  cache (alloc_all ts w) = cache w
  /\ (nextAddr w <= nextAddr (alloc_all ts w))%nat.
Proof.
  revert w. induction ts as [| t ts IH]; intros w.
  - cbn. split; [reflexivity | lia].
  - cbn [alloc_all]. destruct (IH (snd (alloc t w))) as (Hc & Hn).
    rewrite Hc. split; [reflexivity |].
    change (nextAddr (snd (alloc t w))) with (S (nextAddr w)) in Hn. lia.
Qed.

Section CustomPath.

Variable engine : Engine.
Variable onRebuild : CallbackId -> addr -> World -> RebuildData.

(** X15: with a custom callback registered the built-in recreation is
    not consulted: [_rebuild()] itself makes no creation call, whatever
    the source.  The callback runs on the cleared descriptor.  If it
    answers synchronously with a descriptor, that one is transferred in
    and the ready flag is what the callback asked for; if it answers with
    a promise and [isAsync], the transfer is left to a pending handler and
    the descriptor stays not ready with the handle it had; any other
    answer (a null proxy, a promise without [isAsync], a descriptor with
    it) makes [_rebuild()] throw, with the flags cleared and nothing
    transferred. *)
Theorem X15_rebuild_custom cb this w :
  allocated w this ->
  onRebuildCallback (heap w this) = Some cb ->
  let w0 := rebuild_reset this w in
  let data := onRebuild cb this w0 in
  let w1 := alloc_all (data_created data) w0 in
  let o := _rebuild engine onRebuild this w in
  creates (world_of o) = creates w
  /\ match data_isAsync data, data_proxy data with
     | false, ProxyTexture p =>
         o = Returned (swap_then_ready p this (data_isReady data) w1) None
         /\ isReady (heap (world_of o) this) = data_isReady data
         /\ handle_of (world_of o) this = handle_of w1 p
         /\ transfers (world_of o)
            = transfers w ++ [Call_swapAndDie p this false]
     | true, ProxyPromise =>
         o = Returned w1 (Some (OnPromise this (data_isReady data)))
         /\ isReady (heap w1 this) = false
         /\ handle_of w1 this = handle_of w this
         /\ transfers w1 = transfers w
     | _, _ =>
         o = Threw w1
         /\ isReady (heap w1 this) = false
         /\ handle_of w1 this = handle_of w this
         /\ transfers w1 = transfers w
     end.
Proof.
  intros Ha Hcb. cbv zeta.
  destruct (rebuild_reset_keeps this w) as (_ & Hcb0 & Hh0 & _ & _ & Ht0 & Hr0).
  set (w0 := rebuild_reset this w) in *.
  set (data := onRebuild cb this w0).
  assert (Ha0 : allocated w0 this) by exact Ha.
  destruct (alloc_all_allocated (data_created data) w0 this Ha0)
    as (Hheap & _ & Htr).
  set (w1 := alloc_all (data_created data) w0) in *.
  assert (Hr1 : isReady (heap w1 this) = false) by now rewrite Hheap.
  assert (Hh1 : handle_of w1 this = handle_of w this).
  { unfold handle_of in *. now rewrite Hheap. }
  assert (Ht1 : transfers w1 = transfers w).
  { unfold transfers. now rewrite Htr, Ht0. }
  assert (Hc1 : creates w1 = creates w).
  { unfold creates. now rewrite Htr, Ht0. }
  assert (Ho : _rebuild engine onRebuild this w
               = rebuild_custom onRebuild cb this w0).
  { unfold _rebuild, rebuild_recreate. fold w0. now rewrite Hcb0, Hcb. }
  rewrite Ho. unfold rebuild_custom. cbv zeta. fold data. fold w1.
  destruct (data_isAsync data), (data_proxy data) as [| p |];
    cbn [world_of]; (split; [try exact Hc1 |]); try (now repeat split).
  - destruct (swap_then_ready_spec p this (data_isReady data) w1)
      as (_ & _ & _ & _ & Hc). now rewrite Hc.
  - destruct (swap_then_ready_spec p this (data_isReady data) w1)
      as (Hr & Hh & _).
    split; [reflexivity |]. split; [exact Hr |]. split; [exact Hh |].
    now rewrite transfers_swap_then_ready, Ht1.
Qed.

(** X16: [_rebuild()] and its completion handlers change no size of a
    descriptor: width, height, depth, the base sizes and the cached size
    are what they were, whatever the size of the proxy that was
    transferred in; nor do they change a reference count. *)
Theorem X16_rebuild_keeps_geometry this w a :
  allocated w a ->
  let o := _rebuild engine onRebuild this w in
  geometry (heap (world_of o) a) = geometry (heap w a)
  /\ references (world_of o) a = references w a
  /\ (forall k arg w1 b,
        geometry (heap (world_of (resume k arg w1)) b) = geometry (heap w1 b)
        /\ references (world_of (resume k arg w1)) b = references w1 b).
Proof.
  intros Ha. cbv zeta. unfold references. repeat split.
  - apply rebuild_field; [frame | exact Ha].
  - apply rebuild_field; [frame | exact Ha].
  - apply resume_field. frame.
  - apply resume_field. frame.
Qed.

End CustomPath.

(** ** What the trace can grow by *)






Section TraceGrowth.

Variable engine : Engine.
Variable onRebuild : CallbackId -> addr -> World -> RebuildData.








End TraceGrowth.

(** ** The cache invariant *)

Lemma cache_ok_same w w' :
  cache w' = cache w -> (nextAddr w <= nextAddr w')%nat ->
  cache_ok w -> cache_ok w'.
Proof.
  intros Hc Hn (Hnd & Hall). unfold cache_ok. rewrite Hc. split; [exact Hnd |].
  eapply Forall_impl; [| exact Hall]. unfold allocated. intros a Ha. lia.
Qed.

Lemma cache_ok_swap s t w w' :
  cache w' = swap_cache s t (cache w) -> nextAddr w' = nextAddr w ->
  allocated w t -> cache_ok w -> cache_ok w'.
Proof.
  intros Hc Hn Ht (Hnd & Hall). unfold cache_ok. rewrite Hc.
  split; [now apply NoDup_swap_cache |].
  apply Forall_forall. intros a Ha. unfold allocated. rewrite Hn.
  apply swap_cache_In in Ha as [-> | Ha]; [exact Ht |].
  rewrite Forall_forall in Hall. now apply Hall.
Qed.

Lemma cache_ok_swap_then_ready p this r w :
  allocated w this -> cache_ok w -> cache_ok (swap_then_ready p this r w).
Proof.
  intros Ha Hok.
  destruct (swap_then_ready_spec p this r w) as (_ & _ & Hc & Hn & _).
  now apply (cache_ok_swap p this w).
Qed.

Section CacheInvariant.

Variable engine : Engine.
Variable onRebuild : CallbackId -> addr -> World -> RebuildData.

Lemma cache_ok_create call w :
  cache_ok w -> cache_ok (snd (engine_create engine call w)).
Proof.
  intros Hok.
  destruct (engine_create_full engine call w) as (Hp & Hn & _ & _ & _ & Hc).
  destruct (engine_registers engine call w).
  - destruct Hok as (Hnd & Hall). unfold cache_ok. rewrite Hc, Hp. split.
    + apply NoDup_app;
        [exact Hnd | repeat constructor; intros []
        | intros x Hx [E | []]; subst x].
      rewrite Forall_forall in Hall. apply Hall in Hx.
      unfold allocated in Hx. lia.
    + apply Forall_app. split.
      * eapply Forall_impl; [| exact Hall]. unfold allocated.
        intros a Ha. rewrite Hn. lia.
      * repeat constructor. unfold allocated. rewrite Hn. lia.
  - apply (cache_ok_same w); [exact Hc | rewrite Hn; lia | exact Hok].
Qed.

Lemma cache_ok_rebuild_switch this w :
  allocated w this -> cache_ok w ->
  cache_ok (world_of (rebuild_switch engine this w)).
Proof.
  intros Ha Hok. unfold rebuild_switch. cbv zeta.
  destruct (source w this); try exact Hok;
    match goal with
    | |- context [engine_create engine ?c ?w0] =>
        pose proof (cache_ok_create c w0 Hok) as Hc;
        pose proof (engine_create_full engine c w0) as (_ & Hn & _);
        destruct (engine_create engine c w0) as [p w1]; cbn [snd] in Hc, Hn
    end;
    assert (Ha1 : allocated w1 this)
      by (unfold allocated in *; rewrite Hn; lia);
    cbn [world_of]; try exact Hc;
    try (now apply cache_ok_swap_then_ready).
  (* Dynamic is left *)
  apply (cache_ok_same (_swapAndDie p this false w1)).
  - unfold engine_updateDynamicTexture.
    now destruct (engine_dynamicReady engine _).
  - unfold engine_updateDynamicTexture.
    destruct (engine_dynamicReady engine _); apply Nat.le_refl.
  - apply (cache_ok_swap p this w1);
      [apply cache_swapAndDie | apply nextAddr_swapAndDie | exact Ha1 | exact Hc].
Qed.

Lemma cache_ok_rebuild this w :
  allocated w this -> cache_ok w ->
  cache_ok (world_of (_rebuild engine onRebuild this w)).
Proof.
  intros Ha Hok. unfold _rebuild, rebuild_recreate.
  assert (Hok0 : cache_ok (rebuild_reset this w)) by exact Hok.
  assert (Ha0 : allocated (rebuild_reset this w) this) by exact Ha.
  destruct (onRebuildCallback _); [| now apply cache_ok_rebuild_switch].
  unfold rebuild_custom. cbv zeta.
  set (data := onRebuild _ _ _).
  destruct (cache_alloc_all (data_created data) (rebuild_reset this w))
    as (Hc & Hn).
  set (w1 := alloc_all _ _) in *.
  assert (Hok1 : cache_ok w1) by now apply (cache_ok_same (rebuild_reset this w)).
  assert (Ha1 : allocated w1 this) by (unfold allocated in *; lia).
  destruct (data_isAsync data), (data_proxy data); cbn [world_of];
    try exact Hok1.
  now apply cache_ok_swap_then_ready.
Qed.

Lemma cache_ok_resume k arg w :
  allocated w (pending_this k) -> cache_ok w ->
  cache_ok (world_of (resume k arg w)).
Proof.
  intros Ha Hok. destruct (handler_proxy k arg) as [p |] eqn:E.
  - rewrite (resume_with_proxy k arg p w E).
    now apply cache_ok_swap_then_ready.
  - destruct k, arg; try discriminate E; cbn [resume world_of]; exact Hok.
Qed.

(** X18: a well-kept cache (existing descriptors only, none listed twice)
    stays well kept under every operation of the class on an existing
    descriptor: counting, disposal, resizing, construction, a transfer into
    it from any source, a rebuild on any path, and the completion of a
    rebuild. *)
Theorem X18_cache_invariant this w :
  cache_ok w -> allocated w this ->
  cache_ok (incrementReferences this w)
  /\ cache_ok (dispose this w)
  /\ (forall throws wd ht dp,
        cache_ok (world_of (updateSize engine throws this wd ht dp w)))
  /\ (forall src delay, cache_ok (snd (new_InternalTexture src delay w)))
  /\ (forall s swapAll, cache_ok (_swapAndDie s this swapAll w))
  /\ cache_ok (world_of (_rebuild engine onRebuild this w))
  /\ (forall k arg,
        pending_this k = this -> cache_ok (world_of (resume k arg w))).
Proof.
  intros Hok Ha.
  split; [exact Hok |]. split; [| split; [| split; [| split; [| split]]]].
  - apply (cache_ok_same w); [apply cache_dispose | | exact Hok].
    rewrite dispose_unfold. cbv zeta.
    destruct (references w this =? 1); apply Nat.le_refl.
  - intros throws wd ht dp. unfold updateSize. cbv zeta.
    destruct (throws this wd ht _ w); exact Hok.
  - intros src delay.
    destruct (new_InternalTexture_spec src delay w)
      as (_ & Hn & _ & _ & _ & Hc & _).
    apply (cache_ok_same w); [exact Hc | rewrite Hn; lia | exact Hok].
  - intros s swapAll. apply (cache_ok_swap s this w);
      [apply cache_swapAndDie | apply nextAddr_swapAndDie | exact Ha | exact Hok].
  - now apply cache_ok_rebuild.
  - intros k arg Hk. apply cache_ok_resume; [now rewrite Hk | exact Hok].
Qed.

End CacheInvariant.

(** X19: a rebuild in flight is not cancelled by a disposal.  When the
    descriptor is disposed before the handler runs, the handler still
    transfers the proxy into it: the descriptor ends with the proxy's
    handle and the handler's ready flag, with the count one lower than
    before the disposal and with no engine release beyond the disposal's
    own. *)
Theorem X19_disposed_then_completed k arg p w :
  handler_proxy k arg = Some p ->
  p <> pending_this k ->
  let this := pending_this k in
  let w1 := dispose this w in
  let w2 := world_of (resume k arg w1) in
  handle_of w2 this = handle_of w p
  /\ isReady (heap w2 this) = handler_ready k
  /\ references w2 this = references w this - 1
  /\ releases w2 this = releases w1 this
  /\ (references w this = 1 ->
      handle_of w1 this = None /\ references w2 this = 0).
Proof.
  intros Hp Hne. cbv zeta.
  rewrite (resume_with_proxy k arg p _ Hp). cbn [world_of].
  destruct (swap_then_ready_spec p (pending_this k) (handler_ready k)
              (dispose (pending_this k) w)) as (Hr & Hh & _).
  assert (Hrefs : references (swap_then_ready p (pending_this k)
                                (handler_ready k) (dispose (pending_this k) w))
                             (pending_this k)
                  = references w (pending_this k) - 1).
  { unfold references at 1. rewrite swap_then_ready_field by frame.
    apply references_dispose. }
  split; [| split; [exact Hr | split; [exact Hrefs | split]]].
  - rewrite Hh. unfold handle_of. now rewrite dispose_other.
  - apply releases_swap_then_ready.
  - intros H1. split; [| lia].
    rewrite handle_dispose, H1. reflexivity.
Qed.

(** ** Instances *)

Lemma X13_prefiltered_completes_empty_witness :
  let this := fst (one_texture CubePrefiltered) in
  let w := snd (one_texture CubePrefiltered) in
  let o := _rebuild loading_engine no_callbacks this w in
  let w2 := world_of (resume (OnPrefilteredLoad this) None (world_of o)) in
  allocated w this
  /\ source w this = CubePrefiltered
  /\ onRebuildCallback (heap w this) = None
  /\ isReady (heap w2 this) = true
  /\ handle_of w2 this = Some 0%nat
  /\ cache w2 = [1%nat].
Proof.
  destruct (X13_prefiltered_completes_empty loading_engine no_callbacks
              (fst (one_texture CubePrefiltered))
              (snd (one_texture CubePrefiltered))
              (one_texture_allocated CubePrefiltered) eq_refl eq_refl)
    as (_ & Hr & Hh & _ & _).
  cbv zeta. split; [apply one_texture_allocated |].
  split; [reflexivity |]. split; [reflexivity |].
  split; [exact Hr |]. split; [exact Hh | reflexivity].
Defined.

Lemma X14_rebuild_dynamic_witness :
  let this := fst (one_texture Dynamic) in
  let w := snd (one_texture Dynamic) in
  let o := _rebuild loading_engine no_callbacks this w in
  allocated w this
  /\ source w this = Dynamic
  /\ onRebuildCallback (heap w this) = None
  /\ pending_of o = None
  /\ handle_of (world_of o) this = Some 42%nat
  /\ isReady (heap (world_of o) this) = true.
Proof.
  destruct (X14_rebuild_dynamic loading_engine no_callbacks
              (fst (one_texture Dynamic)) (snd (one_texture Dynamic))
              (one_texture_allocated Dynamic) eq_refl eq_refl)
    as (call & ws & Ho & _ & _ & _ & Hh & _).
  cbv zeta. split; [apply one_texture_allocated |].
  split; [reflexivity |]. split; [reflexivity |].
  split; [now rewrite Ho |]. split; [reflexivity | reflexivity].
Defined.

Lemma with_callback_allocated :
  allocated (snd with_callback) (fst with_callback).
Proof. unfold allocated. change (0 < 1)%nat. lia. Qed.

Lemma X15_rebuild_custom_witness :
  let this := fst with_callback in
  let w := snd with_callback in
  let o := _rebuild plain_engine proxy_callbacks this w in
  allocated w this
  /\ onRebuildCallback (heap w this) = Some 0%nat
  /\ creates (world_of o) = creates w
  /\ isReady (heap (world_of o) this) = true
  /\ handle_of (world_of o) this = Some 7%nat.
Proof.
  destruct (X15_rebuild_custom plain_engine proxy_callbacks 0%nat
              (fst with_callback) (snd with_callback)
              with_callback_allocated eq_refl)
    as (Hc & _).
  cbv zeta. split; [apply with_callback_allocated |].
  split; [reflexivity |]. split; [exact Hc |].
  split; reflexivity.
Defined.

Lemma X16_rebuild_keeps_geometry_witness :
  let this := fst (one_texture Raw) in
  let w := world_of (updateSize plain_engine resize_ok this 4 4 None
                       (snd (one_texture Raw))) in
  let o := _rebuild loading_engine no_callbacks this w in
  allocated w this
  /\ geometry (heap w this) = (4, 4, 1, (4, 4, 1), 16)
  /\ geometry (heap (world_of o) this) = geometry (heap w this).
Proof.
  assert (Ha : allocated
                 (world_of
                    (updateSize plain_engine resize_ok (fst (one_texture Raw))
                       4 4 None (snd (one_texture Raw))))
                 (fst (one_texture Raw))).
  { unfold allocated. change (0 < 1)%nat. lia. }
  destruct (X16_rebuild_keeps_geometry loading_engine no_callbacks
              (fst (one_texture Raw)) _ (fst (one_texture Raw)) Ha)
    as (Hg & _).
  cbv zeta. split; [exact Ha |]. split; [reflexivity | exact Hg].
Defined.

Lemma X18_cache_invariant_witness :
  cache_ok two_textures
  /\ allocated two_textures 0%nat
  /\ cache_ok (dispose 0%nat two_textures)
  /\ cache_ok (_swapAndDie 1%nat 0%nat true two_textures)
  /\ cache_ok (world_of (_rebuild loading_engine no_callbacks 0%nat two_textures)).
Proof.
  assert (Ha : allocated two_textures 0%nat).
  { unfold allocated. change (0 < 2)%nat. lia. }
  destruct (X18_cache_invariant loading_engine no_callbacks 0%nat two_textures
              two_textures_cache_ok Ha)
    as (_ & Hd & _ & _ & Hs & Hr & _).
  split; [apply two_textures_cache_ok |]. split; [exact Ha |].
  split; [exact Hd |]. split; [apply Hs | exact Hr].
Defined.

Lemma X19_disposed_then_completed_witness :
  let k := OnUrlLoad 0%nat in
  let w1 := dispose 0%nat two_textures in
  let w2 := world_of (resume k (Some 1%nat) w1) in
  handler_proxy k (Some 1%nat) = Some 1%nat
  /\ 1%nat <> pending_this k
  /\ references two_textures 0%nat = 1
  /\ handle_of w1 0%nat = None
  /\ references w2 0%nat = 0
  /\ handle_of w2 0%nat = Some 1%nat
  /\ isReady (heap w2 0%nat) = true.
Proof.
  assert (Hne : 1%nat <> pending_this (OnUrlLoad 0%nat)) by discriminate.
  destruct (X19_disposed_then_completed (OnUrlLoad 0%nat) (Some 1%nat) 1%nat
              two_textures eq_refl Hne)
    as (Hh & Hr & _ & _ & Hz).
  destruct (Hz eq_refl) as (Hnone & Hzero).
  cbv zeta. split; [reflexivity |]. split; [exact Hne |].
  split; [reflexivity |]. split; [exact Hnone |]. split; [exact Hzero |].
  split; [exact Hh | exact Hr].
Defined.

Section UrlRequest.

Variable engine : Engine.
Variable onRebuild : CallbackId -> addr -> World -> RebuildData.

(** X20: a Url rebuild asks the engine for the original URL when the
    descriptor has one (an empty one included) and for the current URL
    otherwise, with the descriptor's own flags, format and buffer as they
    were before the rebuild; [noMipmap] is the negation of what
    [useMipMaps] was last set to, [useMipMaps] being another name of
    [generateMipMaps]. *)
Theorem X20_url_request this v w :
  allocated w this ->
  source w this = Url ->
  onRebuildCallback (heap w this) = None ->
  let w' := set_useMipMaps this v w in
  let t := heap w this in
  useMipMaps w' this = v
  /\ generateMipMaps (heap w' this) = v
  /\ creates (world_of (_rebuild engine onRebuild this w'))
     = creates w
       ++ [Ev_create
             (createTexture
                (match _originalUrl t with Some u => u | None => url t end)
                (negb v) (invertY t) (samplingMode (sampler t)) (_buffer t)
                (format t) (_extension t) (_useSRGBBuffer t))
             (nextAddr w)].
Proof.
  intros Ha Hs Hcb. cbv zeta. unfold useMipMaps, set_useMipMaps.
  rewrite heap_upd_same. split; [reflexivity |]. split; [reflexivity |].
  set (w' := upd this (set_generateMipMaps v) w).
  assert (Hs' : source w' this = Url).
  { unfold source, w' in *. now rewrite heap_upd_same. }
  assert (Hcb' : onRebuildCallback (heap w' this) = None).
  { unfold w'. now rewrite heap_upd_same. }
  destruct (rebuild_reset_keeps this w') as (Hs0 & Hcb0 & _).
  unfold _rebuild, rebuild_recreate. rewrite Hcb0, Hcb'.
  unfold rebuild_switch. cbv zeta. rewrite Hs0, Hs'.
  rewrite rebuild_reset_this.
  match goal with
  | |- context [engine_create engine ?c ?w0] =>
      pose proof (engine_create_spec engine c w0) as Hec; cbv zeta in Hec;
      destruct (engine_create engine c w0) as [p w1]; cbn [fst snd] in Hec;
      destruct Hec as (Hp & _ & _ & Htr)
  end.
  cbn [world_of]. unfold creates. rewrite Htr, filter_app, Hp.
  unfold w'. rewrite heap_upd_same. reflexivity.
Qed.

End UrlRequest.

Lemma X20_url_request_witness :
  let this := fst (one_texture Url) in
  let w := snd (one_texture Url) in
  let w' := set_useMipMaps this true w in
  allocated w this
  /\ source w this = Url
  /\ onRebuildCallback (heap w this) = None
  /\ creates (world_of (_rebuild plain_engine no_callbacks this w'))
     = [Ev_create (createTexture "" false false (-1) None (-1) "" false)
          1%nat].
Proof.
  destruct (X20_url_request plain_engine no_callbacks (fst (one_texture Url))
              true (snd (one_texture Url)) (one_texture_allocated Url)
              eq_refl eq_refl)
    as (_ & _ & Hc).
  cbv zeta. split; [apply one_texture_allocated |].
  split; [reflexivity |]. split; [reflexivity | exact Hc].
Defined.

(** ** Rebuild with the engine's timing of the handlers *)

Section Timed.

Variable engine : Engine.
Variable onRebuild : CallbackId -> addr -> World -> RebuildData.
Variable loader : CreateCall -> World -> Completion.

(** With every handler deferred, [_rebuild_timed] is [_rebuild]. *)
Lemma rebuild_timed_deferred this w :
  (forall call w0, loader call w0 = Deferred) ->
  _rebuild_timed engine onRebuild loader this w
  = _rebuild engine onRebuild this w.
Proof.
  intros Hd. unfold _rebuild_timed, _rebuild, rebuild_recreate_timed,
    rebuild_recreate.
  destruct (onRebuildCallback _); [reflexivity |].
  unfold rebuild_switch_timed, rebuild_switch. cbv zeta.
  destruct (source _ this); try reflexivity;
    destruct (engine_create _ _ _); now rewrite Hd.
Qed.

(** The outcome of an asynchronous case, by the loader's timing. *)
Lemma rebuild_timed_cases this w :
  allocated w this ->
  rebuild_async (source w this) = true ->
  onRebuildCallback (heap w this) = None ->
  let w0 := rebuild_reset this w in
  let o := _rebuild_timed engine onRebuild loader this w in
  let p := nextAddr w in
  exists call,
    let w1 := snd (engine_create engine call w0) in
    creates w1 = creates w ++ [Ev_create call p]
    /\ transfers w1 = transfers w
    /\ heap w1 this = heap w0 this
    /\ match loader call w0 with
       | Deferred =>
           o = _rebuild engine onRebuild this w
           /\ creates (world_of o) = creates w ++ [Ev_create call p]
       | Immediate arg =>
           match source w this, arg with
           | Url, Some q => o = Returned (swap_then_ready q this true w1) None
           | Url, None => o = Threw w1
           | Cube, _ => o = Threw w1
           | CubePrefiltered, Some q =>
               o = Returned
                     (upd p
                        (set__sphericalPolynomial
                           (_sphericalPolynomial
                              (heap (swap_then_ready q this true w1) this)))
                        (swap_then_ready q this true w1))
                     None
           | CubePrefiltered, None =>
               o = Returned
                     (upd p
                        (set__sphericalPolynomial
                           (_sphericalPolynomial
                              (heap (upd this (set_isReady true) w1) this)))
                        (upd this (set_isReady true) w1))
                     None
           | _, _ => True
           end
       end.
Proof.
  intros Ha Hs Hcb. cbv zeta.
  destruct (rebuild_reset_keeps this w)
    as (Hs0 & Hcb0 & _ & _ & _ & Ht0 & _).
  assert (Ha0 : allocated (rebuild_reset this w) this) by exact Ha.
  unfold _rebuild_timed, _rebuild, rebuild_recreate_timed, rebuild_recreate.
  rewrite Hcb0, Hcb.
  unfold rebuild_switch_timed, rebuild_switch. cbv zeta. rewrite Hs0.
  destruct (source w this); try discriminate Hs;
    match goal with
    | |- context [engine_create engine ?c ?w0] =>
        pose proof (engine_create_full engine c w0) as Hec;
        cbv zeta in Hec; exists c;
        destruct (engine_create engine c w0) as [q0 w1];
        cbn [fst snd] in Hec |- *;
        destruct Hec as (Hq & _ & _ & Hf & Htr & _); subst q0;
        destruct (loader c w0) as [| [q |]]
    end;
    change (nextAddr (rebuild_reset this w)) with (nextAddr w) in *;
    (split; [unfold creates in *; rewrite <- Ht0;
             now apply creates_after_create |]);
    (split; [rewrite (transfers_create _ _ _ _ Htr); unfold transfers;
             now rewrite Ht0 |]);
    (split; [now apply Hf |]);
    cbn [resume world_of]; try reflexivity;
    (split; [reflexivity |]); cbn [world_of];
    rewrite ?trace_upd; unfold creates in *; rewrite <- Ht0;
    now apply creates_after_create.
Qed.

(** X12: a Url, Cube or CubePrefiltered descriptor without a custom
    callback is rebuilt through one creation call that is handed a
    completion handler; what [_rebuild()] leaves depends on when the
    engine's loader runs the handler.
    - If the loader defers it, [_rebuild()] returns with the handler
      pending: the descriptor is not ready, still holds the handle it
      had, nothing has been transferred; when the handler then runs on
      the created proxy the descriptor is ready, holds the proxy's handle
      and is listed in the cache, and with a well-kept cache the proxy is
      not.
    - If the loader runs it before the creation call returns, no handler
      is left pending.  For Url and CubePrefiltered handed a texture, the
      transfer is done and the descriptor is ready with that texture's
      handle when [_rebuild()] returns; CubePrefiltered handed nothing
      returns ready with the old handle and no transfer.  Url handed
      nothing, and Cube in every case (its handler reads the result of
      the creation call, which is not assigned yet), throw: the
      descriptor stays not ready with its old handle, nothing
      transferred. *)
Theorem X12_rebuild_asynchronous this w :
  allocated w this ->
  rebuild_async (source w this) = true ->
  onRebuildCallback (heap w this) = None ->
  let w0 := rebuild_reset this w in
  let o := _rebuild_timed engine onRebuild loader this w in
  let w' := world_of o in
  let p := nextAddr w in
  exists call,
    let w1 := snd (engine_create engine call w0) in
    creates w' = creates w ++ [Ev_create call p]
    /\ match loader call w0 with
       | Deferred =>
           exists k,
             o = Returned w' (Some k)
             /\ pending_this k = this
             /\ handler_proxy k (Some p) = Some p
             /\ transfers w' = transfers w
             /\ isReady (heap w' this) = false
             /\ handle_of w' this = handle_of w this
             /\ (let w2 := world_of (resume k (Some p) w') in
                 isReady (heap w2 this) = true
                 /\ handle_of w2 this
                    = _hardwareTexture (engine_newTexture engine call w0)
                 /\ In this (cache w2)
                 /\ (cache_ok w -> ~ In p (cache w2)))
       | Immediate arg =>
           pending_of o = None
           /\ match source w this, arg with
              | Cube, _ | Url, None =>
                  o = Threw w'
                  /\ isReady (heap w' this) = false
                  /\ handle_of w' this = handle_of w this
                  /\ transfers w' = transfers w
              | _, Some q =>
                  o = Returned w' None
                  /\ isReady (heap w' this) = true
                  /\ handle_of w' this = handle_of w1 q
                  /\ transfers w' = transfers w ++ [Call_swapAndDie q this false]
              | _, None =>
                  o = Returned w' None
                  /\ isReady (heap w' this) = true
                  /\ handle_of w' this = handle_of w this
                  /\ transfers w' = transfers w
              end
       end.
Proof.
  intros Ha Hs Hcb. cbv zeta.
  destruct (rebuild_timed_cases this w Ha Hs Hcb)
    as (call & Hcr & Htrf & Hheap & Hcase).
  cbv zeta in Hcr, Htrf, Hheap, Hcase.
  destruct (rebuild_reset_keeps this w) as (_ & _ & Hh0 & _ & _ & _ & Hr0).
  assert (Hne : nextAddr w <> this) by (unfold allocated in Ha; lia).
  assert (Hr1 : isReady (heap (snd (engine_create engine call
                                     (rebuild_reset this w))) this) = false)
    by now rewrite Hheap.
  assert (Hh1 : handle_of (snd (engine_create engine call
                                  (rebuild_reset this w))) this
                = handle_of w this).
  { unfold handle_of in *. now rewrite Hheap. }
  exists call. cbv zeta.
  destruct (loader call (rebuild_reset this w)) as [| arg].
  - (* deferred: as [_rebuild] *)
    destruct Hcase as (Ho & Hc). rewrite Ho in *. split; [exact Hc |].
    destruct (rebuild_async_spec engine onRebuild this w Ha Hs Hcb)
      as (call' & k & Hret & Hk & Hp & Hc' & Hrest).
    assert (Ecall : call' = call).
    { rewrite Hc' in Hc. apply app_inv_head in Hc. now injection Hc. }
    subst call'. exists k.
    split; [exact Hret |]. split; [exact Hk |]. split; [exact Hp |].
    exact Hrest.
  - (* run before the call returns *)
    destruct (source w this); try discriminate Hs;
      destruct arg as [q |]; rewrite Hcase; cbn [world_of pending_of].
    + (* Url, a texture *)
      destruct (swap_then_ready_spec q this true
                  (snd (engine_create engine call (rebuild_reset this w))))
        as (Hr & Hh & _ & _ & Hc).
      split; [now rewrite Hc |]. split; [reflexivity |].
      split; [reflexivity |]. split; [exact Hr |]. split; [exact Hh |].
      now rewrite transfers_swap_then_ready, Htrf.
    + (* Url, nothing *)
      split; [exact Hcr |]. split; [reflexivity |]. split; [reflexivity |].
      split; [exact Hr1 |]. split; [exact Hh1 | exact Htrf].
    + (* Cube *)
      split; [exact Hcr |]. split; [reflexivity |]. split; [reflexivity |].
      split; [exact Hr1 |]. split; [exact Hh1 | exact Htrf].
    + split; [exact Hcr |]. split; [reflexivity |]. split; [reflexivity |].
      split; [exact Hr1 |]. split; [exact Hh1 | exact Htrf].
    + (* CubePrefiltered, a texture *)
      destruct (swap_then_ready_spec q this true
                  (snd (engine_create engine call (rebuild_reset this w))))
        as (Hr & Hh & _ & _ & Hc).
      split; [unfold creates in *; now rewrite trace_upd, Hc |].
      split; [reflexivity |]. split; [reflexivity |].
      unfold handle_of in *.
      rewrite !heap_upd_other by (intros E; now apply Hne).
      split; [exact Hr |]. split; [exact Hh |].
      now rewrite transfers_upd, transfers_swap_then_ready, Htrf.
    + (* CubePrefiltered, nothing *)
      split; [unfold creates in *; now rewrite !trace_upd |].
      split; [reflexivity |]. split; [reflexivity |].
      unfold handle_of in *.
      rewrite !heap_upd_other by (intros E; now apply Hne).
      rewrite !heap_upd_same.
      split; [reflexivity |]. split; [exact Hh1 |].
      now rewrite !transfers_upd.
Qed.

End Timed.

Lemma X11_completion_handlers_witness :
  let k := OnCubeLoad 0%nat 1%nat in
  let o := resume k None two_textures in
  loader_handler k = true
  /\ isReady (heap (world_of o) 0%nat) = true
  /\ handle_of (world_of o) 0%nat = Some 1%nat.
Proof.
  destruct (X11_completion_handlers (OnCubeLoad 0%nat 1%nat) None two_textures
              eq_refl)
    as (_ & Hr & Hh & _).
  cbv zeta. split; [reflexivity |]. split; [exact Hr | exact Hh].
Defined.

Lemma X12_rebuild_asynchronous_witness :
  let this := fst (one_texture Cube) in
  let w := snd (one_texture Cube) in
  let late := _rebuild_timed loading_engine no_callbacks lazy_loader this w in
  let early := _rebuild_timed loading_engine no_callbacks eager_loader this w in
  allocated w this
  /\ rebuild_async (source w this) = true
  /\ onRebuildCallback (heap w this) = None
  /\ pending_of late = Some (OnCubeLoad this 1%nat)
  /\ early = Threw (world_of early)
  /\ isReady (heap (world_of early) this) = false
  /\ handle_of (world_of early) this = handle_of w this.
Proof.
  destruct (X12_rebuild_asynchronous loading_engine no_callbacks eager_loader
              (fst (one_texture Cube)) (snd (one_texture Cube))
              (one_texture_allocated Cube) eq_refl eq_refl)
    as (call & _ & Hcase).
  cbv zeta in Hcase. cbn [eager_loader] in Hcase.
  destruct Hcase as (_ & Hcube).
  change (source (snd (one_texture Cube)) (fst (one_texture Cube)))
    with Cube in Hcube.
  cbv iota in Hcube. destruct Hcube as (Ho & Hr & Hh & _).
  cbv zeta. split; [apply one_texture_allocated |].
  split; [reflexivity |]. split; [reflexivity |]. split; [reflexivity |].
  split; [exact Ho |]. split; [exact Hr | exact Hh].
Defined.
